(** * msub.py: subtitle merging through ffmpeg, with progress reporting

    A shallow embedding of [mergeSub] (src/msub.py).  The Python builtins the
    function relies on are embedded first ([str.replace], the [in] operator on
    strings, [re.search] for the three patterns of the source, binary64
    arithmetic, [float()], [int()], [//], [%], [round()]); the function
    itself follows, split the way its body is laid out: the per-type command
    construction, the duration block and the progress block of the loop over
    stderr, the exit-code test and the [except Exception] handler.

    Outside the function are the file system, the program it starts and the
    callback it is given; they are parameters of the embedding.  The stream
    read from the program is a finite list of lines that decode.  Standard
    output takes the messages the function prints about paths, types and
    its own exceptions; the one print that can fail is that of line 126
    when the exception it formats is one the callback raised. *)

From Stdlib Require Import ZArith Bool List Ascii String Lia.
From Stdlib Require Import Numbers.DecimalString.
From Stdlib Require Import Floats.SpecFloat.
Import ListNotations.

Local Open Scope string_scope.

(** ** Python strings *)

Module PyStr.

(** [s.startswith(p)] *)
Fixpoint startswith (s p : string) {struct p} : bool :=
  match p with
  | EmptyString => true
  | String a p' =>
      match s with
      | EmptyString => false
      | String b s' => Ascii.eqb a b && startswith s' p'
      end
  end.

(** [needle in s]: [needle] occurs in [s] as a contiguous substring. *)
Fixpoint contains (needle s : string) : bool :=
  startswith s needle ||
  match s with
  | EmptyString => false
  | String _ s' => contains needle s'
  end.

Fixpoint drop (n : nat) (s : string) : string :=
  match n, s with
  | O, _ => s
  | S _, EmptyString => EmptyString
  | S k, String _ s' => drop k s'
  end.

(** [s.endswith(suf)] *)
Definition endswith (s suf : string) : bool :=
  Nat.leb (length suf) (length s) &&
  String.eqb (drop (length s - length suf) s) suf.

(** The scan of [str.replace] for a non-empty [old]: left to right, an
    occurrence of [old] is replaced by [new] and the scan resumes after it,
    so the occurrences replaced do not overlap.  [skip] counts the characters
    of the occurrence just replaced that are still to be passed over. *)
Fixpoint replace_scan (old new : string) (skip : nat) (s : string) : string :=
  match s with
  | EmptyString => EmptyString
  | String c s' =>
      match skip with
      | S k => replace_scan old new k s'
      | O =>
          if startswith s old
          then new ++ replace_scan old new (length old - 1) s'
          else String c (replace_scan old new 0 s')
      end
  end.

(** With an empty [old], Python inserts [new] before every character and at
    the end. *)
Fixpoint replace_empty (new s : string) : string :=
  match s with
  | EmptyString => new
  | String c s' => new ++ String c (replace_empty new s')
  end.

(** [s.replace(old, new)] *)
Definition replace (s old new : string) : string :=
  match old with
  | EmptyString => replace_empty new s
  | String _ _ => replace_scan old new 0 s
  end.

End PyStr.

(** ** Regular expressions

    The fragment of Python's [re] syntax that the three patterns of the
    source are written in: a pattern is a sequence of one-character matchers,
    greedy [+] repetitions of one, and group parentheses.  Matching is the
    backtracking search of [re]: a repetition first takes as many characters
    as it can and gives them back one at a time while the rest fails.
    Characters are the 256 code points of [ascii]; among them [\d] matches
    exactly ['0'..'9']. *)

Module Re.

Inductive cls : Type :=
| Lit (c : ascii)   (* the character itself; [\.] is [Lit "."] *)
| Digit             (* [\d] *)
| Dot               (* [.]: any character but a newline *)
| DigitOrDot.       (* [[\d.]] *)

Definition is_digit (c : ascii) : bool :=
  Nat.leb 48 (nat_of_ascii c) && Nat.leb (nat_of_ascii c) 57.

Definition cls_match (k : cls) (c : ascii) : bool :=
  match k with
  | Lit a => Ascii.eqb a c
  | Digit => is_digit c
  | Dot => negb (Ascii.eqb c "010"%char)
  | DigitOrDot => is_digit c || Ascii.eqb c "."%char
  end.

Inductive item : Type :=
| One (k : cls)
| Many1 (k : cls)   (* [k+] *)
| GOpen             (* [(] *)
| GClose.           (* [)] *)

Definition pattern := list item.

(** Every character of [s] is in the class [k]. *)
Fixpoint all_of (k : cls) (s : string) : bool :=
  match s with
  | EmptyString => true
  | String c s' => cls_match k c && all_of k s'
  end.

Fixpoint lits (s : string) : pattern :=
  match s with
  | EmptyString => []
  | String c s' => One (Lit c) :: lits s'
  end.

(** [k+] followed by the continuation [rest]: one character of class [k],
    then the longer match first, the shorter one when that fails. *)
Fixpoint many1 {R : Type} (k : cls) (rest : string -> option R) (s : string)
  : option R :=
  match s with
  | EmptyString => None
  | String c s' =>
      if cls_match k c then
        match many1 k rest s' with
        | Some r => Some r
        | None => rest s'
        end
      else None
  end.

Fixpoint take (n : nat) (s : string) : string :=
  match n, s with
  | O, _ => EmptyString
  | S _, EmptyString => EmptyString
  | S k, String c s' => String c (take k s')
  end.

(** Match [p] at the start of [s].  [opened] is the text that was left when
    the group being read was opened, [groups] the groups closed so far, last
    one first.  The result is [match.groups()]. *)
Fixpoint match_here (p : pattern) (opened : string) (groups : list string)
  (s : string) : option (list string) :=
  match p with
  | [] => Some (rev groups)
  | One k :: p' =>
      match s with
      | EmptyString => None
      | String c s' =>
          if cls_match k c then match_here p' opened groups s' else None
      end
  | Many1 k :: p' => many1 k (match_here p' opened groups) s
  | GOpen :: p' => match_here p' s groups s
  | GClose :: p' =>
      match_here p' opened
        (take (length opened - length s) opened :: groups) s
  end.

(** [re.search(p, s)]: the match at the leftmost position that has one. *)
Fixpoint search (p : pattern) (s : string) : option (list string) :=
  match match_here p s [] s with
  | Some gs => Some gs
  | None =>
      match s with
      | EmptyString => None
      | String _ s' => search p s'
      end
  end.

End Re.

(** ** Exceptions

    The exceptions that can be raised while [mergeSub] runs, and whether the
    handler [except Exception] of the source catches them. *)

Module Py.

#[warnings="-register-all"]
Inductive exc : Type :=
| ValueError          (* [float()] of a malformed literal, [int()] of a nan *)
| OverflowError       (* [int()] of an infinity *)
| ZeroDivisionError   (* a float division, [//] or [%] by zero *)
| IndexError          (* [match.group(n)] for a group the pattern lacks *)
| OSError             (* [subprocess.Popen] could not start the program *)
| Raised (is_Exception : bool) (on_print : option exc).
    (* raised by the caller's callback; [is_Exception] tells whether its
       class derives from [Exception] (it does not for [KeyboardInterrupt],
       [SystemExit] and [GeneratorExit]); [on_print] is what formatting it
       in an f-string and printing the text raises, if anything (its
       [__str__] is the caller's code, and its text may not encode) *)

(** [isinstance(e, Exception)] *)
Definition is_Exception (e : exc) : bool :=
  match e with
  | Raised b _ => b
  | _ => true
  end.

(** What [print(f"... {e}")] raises, if anything.  The exceptions Python
    raises in the function have plain messages, which print. *)
Definition print_error (e : exc) : option exc :=
  match e with
  | Raised _ p => p
  | _ => None
  end.

(** The exceptions of the conversions [float()], [int()] and of
    [match.group()]. *)
Definition conversion_error (e : exc) : bool :=
  match e with
  | ValueError | OverflowError | IndexError => true
  | _ => false
  end.

Inductive result (A : Type) : Type :=
| Ok (a : A)
| Raise (e : exc).

Arguments Ok {A} a.
Arguments Raise {A} e.

Definition bind {A B : Type} (r : result A) (f : A -> result B) : result B :=
  match r with
  | Ok a => f a
  | Raise e => Raise e
  end.

End Py.

Import Py.

Declare Scope py_scope.
Delimit Scope py_scope with py.
Notation "x <- r ;; k" := (Py.bind r (fun x => k))
  (at level 61, r at next level, right associativity) : py_scope.

(** ** Python floats

    A Python float is an IEEE 754 binary64 number: [spec_float] at precision
    53 with exponents below 1024, every operation rounding to nearest, ties
    to even. *)

Module PyFloat.

Local Open Scope Z_scope.

Definition prec : Z := 53.
Definition emax : Z := 1024.

Definition float : Type := spec_float.

Definition zero : float := S754_zero false.

(** [float(z)] for an integer [z] *)
Definition of_Z (z : Z) : float := binary_normalize prec emax z 0 false.

Definition add : float -> float -> float := SFadd prec emax.
Definition sub : float -> float -> float := SFsub prec emax.
Definition mul : float -> float -> float := SFmul prec emax.
Definition eqb : float -> float -> bool := SFeqb.
Definition ltb : float -> float -> bool := SFltb.

(** [bool(x)], which is [x != 0.0]: both zeros are false, a nan is true. *)
Definition truthy (x : float) : bool := negb (eqb x zero).

(** [x / y] *)
Definition div (x y : float) : result float :=
  if eqb y zero then Raise ZeroDivisionError else Ok (SFdiv prec emax x y).

Definition sign (x : float) : bool :=
  match x with
  | S754_zero s | S754_infinity s | S754_finite s _ _ => s
  | S754_nan => false
  end.

(** The binary64 number nearest to [n * 10 ^ e10], for [0 <= n]: what
    [float()] returns for a decimal literal of that value.  [SFdiv] rounds
    the exact quotient of its two mantissas, whatever their size. *)
Definition of_decimal (n e10 : Z) : float :=
  match n with
  | Zpos p =>
      match e10 with
      | Zneg k =>
          SFdiv prec emax (S754_finite false p 0)
                (S754_finite false (Pos.pow 10 k) 0)
      | _ => binary_normalize prec emax (n * 10 ^ e10) 0 false
      end
  | _ => zero
  end.

(** *** [float(s)] for a string

    Leading and trailing whitespace is dropped; an underscore may stand
    between two digits; what is left is a sign followed by [inf],
    [infinity] or [nan] in any case, or by a decimal literal with an
    optional exponent.  Anything else raises [ValueError]. *)

Definition digit_value (c : ascii) : Z := Z.of_nat (nat_of_ascii c - 48).

Fixpoint digits_value (acc : Z) (s : string) : Z :=
  match s with
  | EmptyString => acc
  | String c s' => digits_value (10 * acc + digit_value c) s'
  end.

(** The longest prefix of digits, and what follows it. *)
Fixpoint span_digits (s : string) : string * string :=
  match s with
  | EmptyString => (EmptyString, EmptyString)
  | String c s' =>
      if Re.is_digit c
      then let (d, r) := span_digits s' in (String c d, r)
      else (EmptyString, s)
  end.

Definition is_empty (s : string) : bool :=
  match s with
  | EmptyString => true
  | String _ _ => false
  end.

(** The whitespace [float()] drops, among the 256 code points: tab, line
    feed, vertical tab, form feed, carriage return, space, next line and
    no-break space. *)
Definition is_space (c : ascii) : bool :=
  let n := nat_of_ascii c in
  (Nat.leb 9 n && Nat.leb n 13) || Nat.eqb n 32 || Nat.eqb n 133
  || Nat.eqb n 160.

Fixpoint lstrip (s : string) : string :=
  match s with
  | EmptyString => EmptyString
  | String c s' => if is_space c then lstrip s' else s
  end.

Fixpoint rstrip (s : string) : string :=
  match s with
  | EmptyString => EmptyString
  | String c s' =>
      let r := rstrip s' in
      if is_space c && is_empty r then EmptyString else String c r
  end.

(** An underscore is allowed only between two digits. *)
Fixpoint underscores_ok (prev : ascii) (s : string) : bool :=
  match s with
  | EmptyString => negb (Ascii.eqb prev "_")
  | String c s' =>
      (if Ascii.eqb c "_" then Re.is_digit prev
       else if Ascii.eqb prev "_" then Re.is_digit c
       else true)
      && underscores_ok c s'
  end.

Fixpoint remove_underscores (s : string) : string :=
  match s with
  | EmptyString => EmptyString
  | String c s' =>
      if Ascii.eqb c "_" then remove_underscores s'
      else String c (remove_underscores s')
  end.

Definition lower (c : ascii) : ascii :=
  let n := nat_of_ascii c in
  if Nat.leb 65 n && Nat.leb n 90 then ascii_of_nat (n + 32) else c.

Fixpoint lowercase (s : string) : string :=
  match s with
  | EmptyString => EmptyString
  | String c s' => String (lower c) (lowercase s')
  end.

(** A literal [digits [. digits] [(e|E) [+|-] digits]] with a digit before
    or after the point, read as (digits as an integer, power of ten). *)
Definition parse_literal (s : string) : option (Z * Z) :=
  let (ip, r1) := span_digits s in
  let (fp, r2) :=
    match r1 with
    | String "." r => span_digits r
    | _ => (EmptyString, r1)
    end in
  if is_empty (ip ++ fp) then None
  else
    let n := digits_value 0 (ip ++ fp) in
    let scale := Z.of_nat (length fp) in
    match r2 with
    | EmptyString => Some (n, - scale)
    | String c r3 =>
        if Ascii.eqb c "e" || Ascii.eqb c "E" then
          let (sgn, r4) :=
            match r3 with
            | String "+" r => (1, r)
            | String "-" r => (-1, r)
            | _ => (1, r3)
            end in
          let (ed, r5) := span_digits r4 in
          if is_empty ed || negb (is_empty r5) then None
          else Some (n, sgn * digits_value 0 ed - scale)
        else None
    end.

(** What follows the sign. *)
Definition parse_unsigned (s : string) : option float :=
  match parse_literal s with
  | Some (n, e10) => Some (of_decimal n e10)
  | None =>
      let l := lowercase s in
      if String.eqb l "inf" || String.eqb l "infinity"
      then Some (S754_infinity false)
      else if String.eqb l "nan" then Some S754_nan
      else None
  end.

Definition float_of_str (s : string) : result float :=
  let s := rstrip (lstrip s) in
  if underscores_ok "000" s then
    let (negative, body) :=
      match remove_underscores s with
      | String "-" r => (true, r)
      | String "+" r => (false, r)
      | r => (false, r)
      end in
    match parse_unsigned body with
    | Some x => Ok (if negative then SFopp x else x)
    | None => Raise ValueError
    end
  else Raise ValueError.

(** *** [int(x)], [x // y], [x % y], [round(x, ndigits)] *)

(** [int(x)]: truncation towards zero. *)
Definition int_of_float (x : float) : result Z :=
  match x with
  | S754_zero _ => Ok 0
  | S754_finite s m e =>
      Ok (cond_Zopp s
            match e with
            | Zneg k => Zpos m / 2 ^ Zpos k
            | _ => Zpos m * 2 ^ e
            end)
  | S754_infinity _ => Raise OverflowError
  | S754_nan => Raise ValueError
  end.

(** C's [floor] *)
Definition floor (x : float) : float :=
  match x with
  | S754_finite s m (Zneg k) =>
      let q := Zpos m / 2 ^ Zpos k in
      let r := Zpos m mod 2 ^ Zpos k in
      if s then of_Z (- (if r =? 0 then q else q + 1))
      else of_Z q
  | _ => x
  end.

(** C's [fmod]: the exact remainder of the truncated division, with the
    sign of [x]. *)
Definition fmod (x y : float) : float :=
  match x, y with
  | S754_nan, _ | _, S754_nan => S754_nan
  | S754_infinity _, _ | _, S754_zero _ => S754_nan
  | _, S754_infinity _ | S754_zero _, _ => x
  | S754_finite sx mx ex, S754_finite _ my ey =>
      let e := Z.min ex ey in
      let r := Z.rem (Zpos mx * 2 ^ (ex - e)) (Zpos my * 2 ^ (ey - e)) in
      binary_normalize prec emax (cond_Zopp sx r) e sx
  end.

Definition half : float := of_decimal 5 (-1).
Definition one : float := of_Z 1.

(** [x // y], as CPython's [_float_div_mod] computes the quotient. *)
Definition floordiv (vx wx : float) : result float :=
  if eqb wx zero then Raise ZeroDivisionError
  else
    let mod_ := fmod vx wx in
    let div0 := SFdiv prec emax (sub vx mod_) wx in
    let div_ :=
      if truthy mod_ && negb (Bool.eqb (ltb wx zero) (ltb mod_ zero))
      then sub div0 one else div0 in
    if truthy div_ then
      let fl := floor div_ in
      Ok (if ltb half (sub div_ fl) then add fl one else fl)
    else Ok (S754_zero (sign (SFdiv prec emax vx wx))).

(** [x % y], as CPython's [float_rem] computes it. *)
Definition modulo (vx wx : float) : result float :=
  if eqb wx zero then Raise ZeroDivisionError
  else
    let mod_ := fmod vx wx in
    if truthy mod_ then
      if negb (Bool.eqb (ltb wx zero) (ltb mod_ zero))
      then Ok (add mod_ wx) else Ok mod_
    else Ok (S754_zero (sign wx)).

(** The integer nearest to [n / d], ties to the even one. *)
Definition div_half_even (n d : Z) : Z :=
  let q := n / d in
  let r := n mod d in
  match 2 * r ?= d with
  | Lt => q
  | Gt => q + 1
  | Eq => if Z.even q then q else q + 1
  end.

(** [round(x, ndigits)] for [0 <= ndigits]: the exact value of [x] is
    rounded to [ndigits] decimals, ties to even, and the decimal obtained is
    converted back; a nan or an infinity is returned as it is. *)
Definition round (x : float) (ndigits : nat) : float :=
  match x with
  | S754_finite s m e =>
      let scaled := Zpos m * 10 ^ Z.of_nat ndigits in
      let q :=
        match e with
        | Zneg k => div_half_even scaled (2 ^ Zpos k)
        | _ => scaled * 2 ^ e
        end in
      match q with
      | Z0 => S754_zero s
      | _ => let r := of_decimal q (- Z.of_nat ndigits) in
             if s then SFopp r else r
      end
  | _ => x
  end.

(** [str(z)] for an integer, as an f-string renders it. *)
Definition str_of_int (z : Z) : string :=
  NilZero.string_of_int (Z.to_int z).

End PyFloat.

(** ** [mergeSub] *)

Module Msub.

Import PyStr PyFloat.

(** The keyword arguments of one call of [progress_callback]. *)
Record Sample : Type := {
  percentage : float;
  speed : float;
  eta : string
}.

(** A callback, as far as [mergeSub] can tell: given the samples it was
    called with before and the one it is called with now, it returns or
    raises. *)
Definition callback : Type := list Sample -> Sample -> result unit.

(** What [subprocess.Popen] hands back once the program is started: the
    lines read from [process.stderr] until it is closed, each with its line
    end, and the exit code [process.wait()] stores. *)
Record process : Type := {
  stderr : list string;
  returncode : Z
}.

(** What lies outside the function: [os.path.exists] and
    [subprocess.Popen], which raises [OSError] ([None] here) when the
    program cannot be started. *)
Record world : Type := {
  path_exists : string -> bool;
  Popen : list string -> option process
}.

(** *** The command of each type (lines 32-76)

    [None] is the [else] branch, which returns [False]; otherwise the final
    [output] and [command]. *)
Definition build_command (type : Z) (inputvideo sub output : string)
  : option (string * list string) :=
  if (type =? 1)%Z then
    let output := replace output ".mp4" ".mkv" in
    Some (output,
          ["ffmpeg"; "-i"; inputvideo; "-i"; sub;
           "-map"; "0"; "-map"; "1"; "-c"; "copy"; output])
  else if (type =? 2)%Z then
    Some (output,
          ["ffmpeg"; "-i"; inputvideo; "-i"; sub;
           "-c:v"; "copy"; "-c:a"; "copy"; "-c:s"; "mov_text"; output])
  else if (type =? 3)%Z then
    Some (output,
          ["ffmpeg"; "-i"; inputvideo;
           "-vf"; "subtitles=" ++ sub;
           "-c:v"; "libx264"; "-preset"; "ultrafast";
           "-c:a"; "copy"; output])
  else if (type =? 4)%Z then
    Some (output,
          ["ffmpeg"; "-hwaccel"; "cuda"; "-i"; inputvideo;
           "-vf"; "subtitles=" ++ sub;
           "-c:v"; "h264_nvenc"; "-preset"; "fast"; "-b:v"; "2M";
           "-c:a"; "copy"; output])
  else if (type =? 5)%Z then
    Some (output,
          ["ffmpeg"; "-i"; inputvideo;
           "-vf"; "scale=1280:-2,subtitles=" ++ sub;
           "-c:v"; "libx264"; "-preset"; "ultrafast";
           "-c:a"; "copy"; output])
  else None.

(** *** The three patterns *)

(** [r"Duration: (\d+):(\d+):(\d+.\d+)"] *)
Definition duration_re : Re.pattern :=
  (Re.lits "Duration: " ++
   [Re.GOpen; Re.Many1 Re.Digit; Re.GClose; Re.One (Re.Lit ":");
    Re.GOpen; Re.Many1 Re.Digit; Re.GClose; Re.One (Re.Lit ":");
    Re.GOpen; Re.Many1 Re.Digit; Re.One Re.Dot; Re.Many1 Re.Digit;
    Re.GClose])%list.

(** [r"time=(\d+):(\d+):(\d+\.\d+)"] *)
Definition time_re : Re.pattern :=
  (Re.lits "time=" ++
   [Re.GOpen; Re.Many1 Re.Digit; Re.GClose; Re.One (Re.Lit ":");
    Re.GOpen; Re.Many1 Re.Digit; Re.GClose; Re.One (Re.Lit ":");
    Re.GOpen; Re.Many1 Re.Digit; Re.One (Re.Lit "."); Re.Many1 Re.Digit;
    Re.GClose])%list.

(** [r"speed=([\d.]+)x"] *)
Definition speed_re : Re.pattern :=
  (Re.lits "speed=" ++
   [Re.GOpen; Re.Many1 Re.DigitOrDot; Re.GClose; Re.One (Re.Lit "x")])%list.

Local Open Scope py_scope.

(** [a, b, c = gs] *)
Definition unpack3 (gs : list string) : result (string * string * string) :=
  match gs with
  | [a; b; c] => Ok (a, b, c)
  | _ => Raise ValueError
  end.

(** [match.group(1)] *)
Definition group1 (gs : list string) : result string :=
  match gs with
  | g :: _ => Ok g
  | [] => Raise IndexError
  end.

(** [hours, minutes, seconds = map(float, match.groups())] followed by
    [hours * 3600 + minutes * 60 + seconds]: lines 89-90 and 96-97. *)
Definition to_seconds (gs : list string) : result float :=
  t <- unpack3 gs ;;
  let '(h, m, s) := t in
  hours <- float_of_str h ;;
  minutes <- float_of_str m ;;
  seconds <- float_of_str s ;;
  Ok (add (add (mul hours (of_Z 3600)) (mul minutes (of_Z 60))) seconds).

(** *** The duration block (lines 86-90): the new value of [duration]. *)
Definition duration_block (line : string) (duration : option float)
  : result (option float) :=
  if contains "Duration" line
     && match duration with None => true | Some _ => false end
  then
    match Re.search duration_re line with
    | Some gs => d <- to_seconds gs ;; Ok (Some d)
    | None => Ok duration
    end
  else Ok duration.

(** [eta] is a float on one branch of line 103 and the integer [0] on the
    other. *)
Inductive number : Type :=
| Int (z : Z)
| Float (x : float).

Definition number_floordiv (a : number) (b : Z) : result number :=
  match a with
  | Int z => if (b =? 0)%Z then Raise ZeroDivisionError else Ok (Int (z / b))
  | Float x => q <- floordiv x (of_Z b) ;; Ok (Float q)
  end.

Definition number_mod (a : number) (b : Z) : result number :=
  match a with
  | Int z =>
      if (b =? 0)%Z then Raise ZeroDivisionError else Ok (Int (z mod b))
  | Float x => r <- modulo x (of_Z b) ;; Ok (Float r)
  end.

Definition int_of_number (a : number) : result Z :=
  match a with
  | Int z => Ok z
  | Float x => int_of_float x
  end.

(** Lines 96-108 and the arguments of lines 112-114, for a line on which
    [time_re] matched with groups [gs] while [duration] is [d]. *)
Definition sample_of (gs : list string) (d : float) (line : string)
  : result Sample :=
  elapsed <- to_seconds gs ;;
  ratio <- div elapsed d ;;
  let percentage := mul ratio (of_Z 100) in
  speed <- match Re.search speed_re line with
           | Some sgs => g <- group1 sgs ;; float_of_str g
           | None => Ok (of_Z 1)
           end ;;
  eta <- (if ltb zero speed
          then x <- div (sub d elapsed) speed ;; Ok (Float x)
          else Ok (Int 0)) ;;
  q <- number_floordiv eta 60 ;;
  eta_minutes <- int_of_number q ;;
  r <- number_mod eta 60 ;;
  eta_seconds <- int_of_number r ;;
  Ok {| percentage := round percentage 2;
        speed := round speed 2;
        eta := str_of_int eta_minutes ++ "m " ++ str_of_int eta_seconds ++ "s"
     |}.

(** [match and duration] of line 95: the sample of the line when there is
    one to report. *)
Definition progress_sample (line : string) (duration : option float)
  : result (option Sample) :=
  if contains "time=" line then
    match Re.search time_re line with
    | Some gs =>
        match duration with
        | Some d =>
            if truthy d then s <- sample_of gs d line ;; Ok (Some s)
            else Ok None
        | None => Ok None
        end
    | None => Ok None
    end
  else Ok None.

(** *** The loop, run against the log of the callback's invocations *)

Definition M (A : Type) : Type := list Sample -> result A * list Sample.

Definition ret {A : Type} (a : A) : M A := fun log => (Ok a, log).

Definition lift {A : Type} (r : result A) : M A := fun log => (r, log).

Definition bindM {A B : Type} (m : M A) (f : A -> M B) : M B :=
  fun log =>
    let (r, log') := m log in
    match r with
    | Ok a => f a log'
    | Raise e => (Raise e, log')
    end.

Notation "x <~ m ;; k" := (bindM m (fun x => k))
  (at level 61, m at next level, right associativity) : py_scope.

(** Lines 110-115: the call is made when [progress_callback] is not
    [None]. *)
Definition report (progress_callback : option callback) (s : Sample)
  : M unit :=
  match progress_callback with
  | Some f => fun log => (f log s, (log ++ [s])%list)
  | None => ret tt
  end.

(** The progress block (lines 93-115). *)
Definition progress_block (progress_callback : option callback)
  (line : string) (duration : option float) : M unit :=
  o <~ lift (progress_sample line duration) ;;
  match o with
  | Some s => report progress_callback s
  | None => ret tt
  end.

(** [for line in process.stderr] (lines 84-115); the value is [duration]
    when the stream ends. *)
Fixpoint monitor (progress_callback : option callback) (lines : list string)
  (duration : option float) : M (option float) :=
  match lines with
  | [] => ret duration
  | line :: rest =>
      duration' <~ lift (duration_block line duration) ;;
      _ <~ progress_block progress_callback line duration' ;;
      monitor progress_callback rest duration'
  end.

(** *** The function *)

(** What a call of [mergeSub] amounts to: the value returned or the
    exception that leaves the function, the commands handed to
    [subprocess.Popen], and the samples the callback was called with. *)
Record outcome : Type := {
  returned : result bool;
  spawned : list (list string);
  reported : list Sample
}.

(** [except Exception as e: print(f"... {e}"); return False] (lines
    125-127).  Nothing guards the print of line 126: what it raises leaves
    the function. *)
Definition except_Exception (r : result bool) : result bool :=
  match r with
  | Ok b => Ok b
  | Raise e =>
      if is_Exception e then
        match print_error e with
        | None => Ok false
        | Some e' => Raise e'
        end
      else Raise e
  end.

Definition default_output : string := "output.mp4".

Definition mergeSub (w : world) (type : Z) (inputvideo sub output : string)
  (progress_callback : option callback) : outcome :=
  if negb (path_exists w inputvideo) then
    {| returned := Ok false; spawned := []; reported := [] |}
  else if negb (path_exists w sub) then
    {| returned := Ok false; spawned := []; reported := [] |}
  else
    match build_command type inputvideo sub output with
    | None => {| returned := Ok false; spawned := []; reported := [] |}
    | Some (_, command) =>
        match Popen w command with
        | None =>
            {| returned := except_Exception (Raise OSError);
               spawned := [command]; reported := [] |}
        | Some p =>
            let (r, log) := monitor progress_callback (stderr p) None [] in
            {| returned :=
                 except_Exception
                   (_ <- r ;; Ok (returncode p =? 0)%Z);
               spawned := [command];
               reported := log |}
        end
    end.

(** A world to run the function in: every path exists, and the program
    started prints [lines] on stderr and exits with [code]. *)
Definition ffmpeg_prints (lines : list string) (code : Z) : world :=
  {| path_exists := fun _ => true;
     Popen := fun _ => Some {| stderr := lines; returncode := code |} |}.

End Msub.

(** ** Lines the loop reacts to *)

Module MsubLines.

(** One of the two patterns the loop searches every line for (lines 87 and
    94) matches somewhere in [line]. *)
Definition carries_marker (line : string) : bool :=
  match Re.search Msub.duration_re line, Re.search Msub.time_re line with
  | None, None => false
  | _, _ => true
  end.

End MsubLines.

(** * Properties *)

(** ** Strings *)

Module PyStrFacts.

Import PyStr.

Lemma append_assoc (a b c : string) : (a ++ b) ++ c = a ++ (b ++ c).
Proof.
  induction a as [|x a IH]; simpl; [reflexivity | now rewrite IH].
Qed.

Lemma append_nil_r (a : string) : a ++ "" = a.
Proof.
  induction a as [|x a IH]; simpl; [reflexivity | now rewrite IH].
Qed.

Lemma length_append (a b : string) :
  length (a ++ b) = length a + length b.
Proof.
  induction a as [|x a IH]; simpl; [reflexivity | now rewrite IH].
Qed.

Lemma drop_append (a b : string) : drop (length a) (a ++ b) = b.
Proof.
  induction a as [|x a IH]; simpl; [now destruct b | exact IH].
Qed.

Lemma startswith_split (s p : string) :
  startswith s p = true -> s = p ++ drop (length p) s.
Proof.
  revert s; induction p as [|x p IH]; intros s H; simpl in *.
  - now destruct s.
  - destruct s as [|y s]; [discriminate|].
    apply andb_true_iff in H as [Hxy Hp].
    apply Ascii.eqb_eq in Hxy; subst y.
    simpl. f_equal. now apply IH.
Qed.

Lemma endswith_append (a suf : string) : endswith (a ++ suf) suf = true.
Proof.
  unfold endswith. rewrite length_append.
  apply andb_true_iff; split.
  - apply Nat.leb_le; lia.
  - replace (length a + length suf - length suf) with (length a) by lia.
    rewrite drop_append. apply String.eqb_refl.
Qed.

Lemma drop_split (n : nat) (s : string) :
  n <= length s -> exists a, s = a ++ drop n s /\ length a = n.
Proof.
  revert s; induction n as [|n IH]; intros s Hn.
  - exists ""; split; reflexivity.
  - destruct s as [|c s]; simpl in Hn; [lia|].
    destruct (IH s) as [a [Ha Hl]]; [lia|].
    exists (String c a); simpl; split; [now f_equal | now f_equal].
Qed.

Lemma endswith_split (s suf : string) :
  endswith s suf = true -> exists a, s = a ++ suf.
Proof.
  unfold endswith; intros H.
  apply andb_true_iff in H as [Hle Heq].
  apply Nat.leb_le in Hle. apply String.eqb_eq in Heq.
  destruct (drop_split (length s - length suf) s) as [a [Ha _]]; [lia|].
  exists a. now rewrite Heq in Ha.
Qed.

(** The scan with [k] characters left to pass over is the scan of what
    follows them. *)
Lemma replace_scan_skip (old new : string) (s : string) :
  forall k, replace_scan old new k s = replace_scan old new 0 (drop k s).
Proof.
  induction s as [|c s IH]; intros [|k]; simpl; try reflexivity.
  apply IH.
Qed.

(** The three equations of [replace] for [".mp4"] and [".mkv"]. *)
Lemma mkv_at_occurrence (t : string) :
  replace (".mp4" ++ t) ".mp4" ".mkv" = ".mkv" ++ replace t ".mp4" ".mkv".
Proof. reflexivity. Qed.

Lemma mkv_elsewhere (c : ascii) (s : string) :
  startswith (String c s) ".mp4" = false ->
  replace (String c s) ".mp4" ".mkv" = String c (replace s ".mp4" ".mkv").
Proof.
  intros H. unfold replace. cbn [replace_scan]. now rewrite H.
Qed.

Ltac split_chars :=
  repeat match goal with
    | H : context [Ascii.eqb ?a ?b] |- _ =>
        destruct (Ascii.eqb_spec a b); subst; simpl in H
    | |- context [Ascii.eqb ?a ?b] =>
        destruct (Ascii.eqb_spec a b); subst; simpl
    end.

(** [".mp4"] does not overlap itself: an occurrence of it cannot begin in
    front of another one and end inside it. *)
Lemma mp4_no_overlap (c : ascii) (s b : string) :
  startswith (String c s) ".mp4" = false ->
  startswith (String c (s ++ ".mp4" ++ b)) ".mp4" = false.
Proof.
  intros H.
  destruct s as [|c1 [|c2 [|c3 s]]]; simpl in *;
    split_chars; try reflexivity; try discriminate; try congruence.
Qed.

(** [replace] goes through the path occurrence by occurrence. *)
Lemma replace_mp4_append (a b : string) :
  replace (a ++ ".mp4" ++ b) ".mp4" ".mkv"
  = replace a ".mp4" ".mkv" ++ ".mkv" ++ replace b ".mp4" ".mkv".
Proof.
  remember (length a) as n eqn:Hn.
  revert a Hn; induction n as [n IH] using lt_wf_ind; intros a Hn.
  destruct a as [|c a].
  - apply mkv_at_occurrence.
  - destruct (startswith (String c a) ".mp4") eqn:Hs.
    + apply startswith_split in Hs.
      remember (drop (length ".mp4") (String c a)) as t eqn:Ht.
      clear Ht.
      assert (Hlen : length t < n).
      { subst n. rewrite Hs, length_append. simpl. lia. }
      rewrite Hs, append_assoc, !mkv_at_occurrence.
      rewrite (IH (length t) Hlen t eq_refl).
      reflexivity.
    + change (String c a ++ ".mp4" ++ b) with (String c (a ++ ".mp4" ++ b)).
      rewrite (mkv_elsewhere c (a ++ ".mp4" ++ b)) by now apply mp4_no_overlap.
      rewrite (mkv_elsewhere c a Hs).
      simpl in Hn.
      rewrite (IH (length a) ltac:(lia) a eq_refl).
      reflexivity.
Qed.

Lemma replace_mp4_absent (s : string) :
  contains ".mp4" s = false -> replace s ".mp4" ".mkv" = s.
Proof.
  induction s as [|c s IH]; intros H; [reflexivity|].
  cbn [contains] in H. apply orb_false_iff in H as [Hs Hc].
  rewrite (mkv_elsewhere c s Hs). now rewrite IH.
Qed.

Lemma replace_mp4_cases (s : string) :
  (s = "" /\ replace s ".mp4" ".mkv" = "")
  \/ (exists t, s = ".mp4" ++ t
                /\ replace s ".mp4" ".mkv" = ".mkv" ++ replace t ".mp4" ".mkv")
  \/ (exists c s', s = String c s'
                   /\ startswith s ".mp4" = false
                   /\ replace s ".mp4" ".mkv"
                      = String c (replace s' ".mp4" ".mkv")).
Proof.
  destruct s as [|c s]; [left; split; reflexivity | right].
  destruct (startswith (String c s) ".mp4") eqn:Hs.
  - left. exists (drop (length ".mp4") (String c s)).
    apply startswith_split in Hs. split; [exact Hs|].
    rewrite Hs at 1. apply mkv_at_occurrence.
  - right. exists c, s.
    split; [reflexivity | split; [reflexivity | now apply mkv_elsewhere]].
Qed.

Ltac mp4_cases s s' H :=
  let t := fresh "t" in
  let c := fresh "c" in
  let Hr := fresh "Hr" in
  let Hs := fresh "Hs" in
  let Hc := fresh "Hc" in
  destruct (replace_mp4_cases s)
    as [[-> Hr] | [[t [-> Hr]] | [c [s' [-> [Hs Hr]]]]]];
  rewrite Hr in H; cbn [startswith append] in H; try discriminate H;
  apply andb_true_iff in H as [Hc H]; apply Ascii.eqb_eq in Hc;
  try discriminate Hc; subst c.

(** The rewrite does not bring an occurrence of [".mp4"] about. *)
Lemma mkv_head (c : ascii) (s : string) :
  startswith (String c (replace s ".mp4" ".mkv")) ".mp4" = true ->
  startswith (String c s) ".mp4" = true.
Proof.
  intros H. cbn [startswith] in H.
  apply andb_true_iff in H as [Hc H]. apply Ascii.eqb_eq in Hc; subst c.
  mp4_cases s s1 H. mp4_cases s1 s2 H. mp4_cases s2 s3 H.
  reflexivity.
Qed.

Lemma replace_mp4_gone (s : string) :
  contains ".mp4" (replace s ".mp4" ".mkv") = false.
Proof.
  remember (length s) as n eqn:Hn.
  revert s Hn; induction n as [n IH] using lt_wf_ind; intros s Hn.
  destruct (replace_mp4_cases s)
    as [[-> Hr] | [[t [-> Hr]] | [c [s' [-> [Hs Hr]]]]]]; rewrite Hr.
  - reflexivity.
  - change (contains ".mp4" (".mkv" ++ replace t ".mp4" ".mkv"))
      with (contains ".mp4" (replace t ".mp4" ".mkv")).
    apply (IH (length t)); [subst n; simpl; lia | reflexivity].
  - cbn [contains]. apply orb_false_iff; split.
    + destruct (startswith (String c (replace s' ".mp4" ".mkv")) ".mp4")
        eqn:Hh; [|reflexivity].
      apply mkv_head in Hh. congruence.
    + apply (IH (length s')); [subst n; simpl; lia | reflexivity].
Qed.

End PyStrFacts.

(** ** Regular expressions *)

Module ReFacts.

Import PyStr PyStrFacts Re.

(** What a successful [k+] took: a non-empty run of characters of the
    class, after which the rest of the pattern matched. *)
Lemma many1_inv {R : Type} (k : cls) (rest : string -> option R)
  (s : string) (r : R) :
  many1 k rest s = Some r ->
  exists run suf,
    s = run ++ suf /\ run <> "" /\ all_of k run = true
    /\ rest suf = Some r.
Proof.
  induction s as [|c s IH]; cbn [many1]; [discriminate|].
  destruct (cls_match k c) eqn:Hc; [|discriminate].
  destruct (many1 k rest s) as [r'|] eqn:Hm.
  - intros [= ->]. destruct (IH eq_refl) as (run & suf & -> & _ & Hall & Hr).
    exists (String c run), suf. cbn [all_of append]. rewrite Hc, Hall.
    repeat split; [discriminate | exact Hr].
  - intros Hr. exists (String c ""), s. cbn [all_of append]. rewrite Hc.
    repeat split; [discriminate | exact Hr].
Qed.

Lemma take_append (run suf : string) :
  take (length (run ++ suf) - length suf) (run ++ suf) = run.
Proof.
  rewrite length_append.
  replace (length run + length suf - length suf) with (length run) by lia.
  induction run as [|c run IH]; simpl; [now destruct suf | now rewrite IH].
Qed.

(** [search] answers with a match at some position of the string. *)
Lemma search_inv (p : pattern) (s : string) (gs : list string) :
  search p s = Some gs ->
  exists skipped t, s = skipped ++ t /\ match_here p t [] t = Some gs.
Proof.
  induction s as [|c s IH]; cbn [search].
  - destruct (match_here p "" [] "") eqn:H; [|discriminate].
    intros [= ->]. now exists "", "".
  - destruct (match_here p (String c s) [] (String c s)) eqn:H.
    + intros [= ->]. now exists "", (String c s).
    + intros Hs. destruct (IH Hs) as (skipped & t & -> & Ht).
      now exists (String c skipped), t.
Qed.

Lemma contains_append (needle skipped t : string) :
  startswith t needle = true -> contains needle (skipped ++ t) = true.
Proof.
  intros H. induction skipped as [|c skipped IH]; cbn [append].
  - destruct t; cbn [contains]; now rewrite H.
  - cbn [contains]. rewrite IH. apply orb_true_r.
Qed.

Ltac one_char H :=
  cbn [match_here] in H;
  match type of H with
  | match ?s with EmptyString => _ | String _ _ => _ end = _ =>
      let c := fresh "c" in
      let Hc := fresh "Hc" in
      destruct s as [|c s]; [discriminate H|];
      destruct (cls_match _ c) eqn:Hc; [|discriminate H]
  end.

Ltac one_run H run Hne Hall :=
  cbn [match_here] in H;
  let suf := fresh "suf" in
  apply many1_inv in H as (run & suf & -> & Hne & Hall & H).

End ReFacts.

(** ** Floats *)

Module PyFloatFacts.

Import PyStr PyStrFacts Re PyFloat.

(** A float that compares equal to [0.0] is one of the two zeros. *)
Lemma eqb_zero_inv (x : float) :
  eqb x zero = true -> exists s, x = S754_zero s.
Proof.
  destruct x as [s|s| |s m e]; [now exists s | | | ];
    [destruct s | | destruct s]; discriminate.
Qed.

(** [0 < x] excludes [x == 0]. *)
Lemma ltb_zero_nonzero (x : float) : ltb zero x = true -> eqb x zero = false.
Proof.
  destruct x as [s|s| |s m e]; [discriminate | | discriminate | ];
    destruct s; (discriminate || reflexivity).
Qed.

Lemma div_ok (x y : float) :
  eqb y zero = false -> div x y = Ok (SFdiv prec emax x y).
Proof. unfold div; now intros ->. Qed.

Lemma float_of_str_raises (s : string) (e : exc) :
  float_of_str s = Raise e -> e = ValueError.
Proof.
  unfold float_of_str.
  destruct (underscores_ok _ _); [|congruence].
  match goal with
  | |- context [let (_, _) := ?m in _] => destruct m as [negative body]
  end.
  destruct (parse_unsigned body); congruence.
Qed.

Lemma floordiv_60 (x : float) : exists q, floordiv x (of_Z 60) = Ok q.
Proof.
  unfold floordiv.
  change (eqb (of_Z 60) zero) with false. cbv iota.
  destruct (truthy _ && _); destruct (truthy _); eauto.
Qed.

Lemma modulo_60 (x : float) : exists r, modulo x (of_Z 60) = Ok r.
Proof.
  unfold modulo.
  change (eqb (of_Z 60) zero) with false. cbv iota.
  destruct (truthy _); [destruct (negb _)|]; eauto.
Qed.

(** *** [float()] on digits and points *)

Lemma plain_char (c : ascii) :
  cls_match DigitOrDot c = true ->
  is_space c = false /\ Ascii.eqb c "_" = false
  /\ Ascii.eqb c "-" = false /\ Ascii.eqb c "+" = false.
Proof.
  cbn [cls_match]. intros H. apply orb_true_iff in H as [H|H].
  - repeat split.
    + unfold is_digit in H. unfold is_space.
      apply andb_true_iff in H as [H1 H2].
      apply Nat.leb_le in H1, H2.
      repeat (apply orb_false_iff; split);
        [apply andb_false_iff; right; apply Nat.leb_gt; lia
        | apply Nat.eqb_neq; lia ..].
    + destruct (Ascii.eqb_spec c "_"); [subst; discriminate | reflexivity].
    + destruct (Ascii.eqb_spec c "-"); [subst; discriminate | reflexivity].
    + destruct (Ascii.eqb_spec c "+"); [subst; discriminate | reflexivity].
  - apply Ascii.eqb_eq in H; subst. repeat split.
Qed.

Lemma digit_is_plain (s : string) :
  all_of Digit s = true -> all_of DigitOrDot s = true.
Proof.
  induction s as [|c s IH]; cbn [all_of cls_match]; [reflexivity|].
  intros H. apply andb_true_iff in H as [-> H]. now rewrite IH.
Qed.

Lemma all_of_append (k : cls) (a b : string) :
  all_of k (a ++ b) = all_of k a && all_of k b.
Proof.
  induction a as [|c a IH]; cbn [all_of append]; [reflexivity|].
  now rewrite IH, andb_assoc.
Qed.

Lemma lstrip_plain (s : string) : all_of DigitOrDot s = true -> lstrip s = s.
Proof.
  destruct s as [|c s]; [reflexivity|]. cbn [all_of lstrip]. intros H.
  apply andb_true_iff in H as [H _].
  now destruct (plain_char c H) as [-> _].
Qed.

Lemma rstrip_plain (s : string) : all_of DigitOrDot s = true -> rstrip s = s.
Proof.
  induction s as [|c s IH]; [reflexivity|]. cbn [all_of rstrip]. intros H.
  apply andb_true_iff in H as [H Hs].
  destruct (plain_char c H) as [-> _]. now rewrite IH.
Qed.

Lemma underscores_ok_plain (s : string) :
  all_of DigitOrDot s = true ->
  forall prev, Ascii.eqb prev "_" = false -> underscores_ok prev s = true.
Proof.
  induction s as [|c s IH]; cbn [all_of underscores_ok]; intros H prev Hp.
  - now rewrite Hp.
  - apply andb_true_iff in H as [H Hs].
    destruct (plain_char c H) as (_ & Hu & _).
    rewrite Hu, Hp. cbn [andb]. now apply IH.
Qed.

Lemma remove_underscores_plain (s : string) :
  all_of DigitOrDot s = true -> remove_underscores s = s.
Proof.
  induction s as [|c s IH]; [reflexivity|].
  cbn [all_of remove_underscores]. intros H.
  apply andb_true_iff in H as [H Hs].
  destruct (plain_char c H) as (_ & -> & _). now rewrite IH.
Qed.

(** On a string of digits and points [float()] has nothing to strip and no
    sign to read. *)
Lemma float_of_str_plain (s : string) :
  all_of DigitOrDot s = true ->
  float_of_str s
  = match parse_unsigned s with
    | Some x => Ok x
    | None => Raise ValueError
    end.
Proof.
  intros H. unfold float_of_str.
  rewrite (lstrip_plain s H), (rstrip_plain s H).
  rewrite (underscores_ok_plain s H) by reflexivity.
  rewrite (remove_underscores_plain s H).
  destruct s as [|c s]; [reflexivity|].
  cbn [all_of] in H. apply andb_true_iff in H as [H _].
  destruct (plain_char c H) as (_ & _ & Hm & Hp).
  destruct (Ascii.eqb_spec c "-"); [discriminate|].
  destruct (Ascii.eqb_spec c "+"); [discriminate|].
  destruct c as [[] [] [] [] [] [] [] []]; try reflexivity; congruence.
Qed.

Lemma span_digits_run (a b : string) :
  all_of Digit a = true ->
  match b with EmptyString => true | String c _ => negb (is_digit c) end
  = true ->
  span_digits (a ++ b) = (a, b).
Proof.
  intros Ha Hb. induction a as [|c a IH]; cbn [append].
  - destruct b as [|c b]; [reflexivity|]. cbn [span_digits].
    apply negb_true_iff in Hb. now rewrite Hb.
  - cbn [all_of cls_match] in Ha. apply andb_true_iff in Ha as [Hc Ha].
    cbn [span_digits]. now rewrite Hc, (IH Ha).
Qed.

Lemma span_digits_all (a : string) :
  all_of Digit a = true -> span_digits a = (a, "").
Proof.
  intros H. pose proof (span_digits_run a "" H eq_refl) as E.
  now rewrite append_nil_r in E.
Qed.

Lemma is_empty_false (s : string) : s <> "" -> is_empty s = false.
Proof. now destruct s. Qed.

Lemma float_of_digits (h : string) :
  h <> "" -> all_of Digit h = true -> exists x, float_of_str h = Ok x.
Proof.
  intros Hne Hall.
  rewrite (float_of_str_plain h (digit_is_plain h Hall)).
  unfold parse_unsigned, parse_literal.
  rewrite (span_digits_all h Hall).
  rewrite append_nil_r, (is_empty_false h Hne). eauto.
Qed.

Lemma float_of_digits_point_digits (s f : string) :
  s <> "" -> all_of Digit s = true -> all_of Digit f = true ->
  exists x, float_of_str (s ++ "." ++ f) = Ok x.
Proof.
  intros Hne Hs Hf.
  rewrite float_of_str_plain.
  2:{ rewrite all_of_append, (digit_is_plain s Hs). cbn [append all_of].
      now rewrite (digit_is_plain f Hf). }
  unfold parse_unsigned, parse_literal.
  rewrite (span_digits_run s ("." ++ f) Hs eq_refl). cbn [append].
  rewrite (span_digits_all f Hf).
  replace (is_empty (s ++ f)) with false by (now destruct s). eauto.
Qed.

End PyFloatFacts.

(** ** The loop *)

Module MsubFacts.

Import PyStr PyStrFacts Re ReFacts PyFloat PyFloatFacts Msub.

Local Open Scope py_scope.

(** One turn of the loop. *)
Lemma monitor_cons (cb : option callback) (line : string)
  (rest : list string) (duration : option float) (log : list Sample) :
  monitor cb (line :: rest) duration log =
  match duration_block line duration with
  | Raise e => (Raise e, log)
  | Ok duration' =>
      match progress_block cb line duration' log with
      | (Ok _, log') => monitor cb rest duration' log'
      | (Raise e, log') => (Raise e, log')
      end
  end.
Proof.
  cbn [monitor]. unfold bindM at 1. unfold lift at 1.
  destruct (duration_block line duration) as [d'|e]; [|reflexivity].
  unfold bindM at 1.
  destruct (progress_block cb line d' log) as [[u|e] log']; reflexivity.
Qed.

(** The progress block, by what line 95 decides. *)
Lemma progress_block_eq (cb : option callback) (line : string)
  (duration : option float) (log : list Sample) :
  progress_block cb line duration log =
  match progress_sample line duration with
  | Raise e => (Raise e, log)
  | Ok None => (Ok tt, log)
  | Ok (Some s) => report cb s log
  end.
Proof.
  unfold progress_block, bindM, lift.
  destruct (progress_sample line duration) as [[s|]|e]; reflexivity.
Qed.

(** Once [duration] is set the duration block leaves it alone: the test
    [duration is None] of line 86 fails. *)
Lemma duration_block_known (line : string) (d : float) :
  duration_block line (Some d) = Ok (Some d).
Proof.
  unfold duration_block. now rewrite andb_false_r.
Qed.

(** Line 95 lets nothing through while [duration] is [None] or zero. *)
Lemma progress_sample_gate (line : string) (duration : option float) :
  match duration with Some d => truthy d | None => false end = false ->
  progress_sample line duration = Ok None.
Proof.
  intros H. unfold progress_sample.
  destruct (contains "time=" line); [|reflexivity].
  destruct (Re.search time_re line); [|reflexivity].
  destruct duration as [d|]; [now rewrite H | reflexivity].
Qed.

(** While no line sets [duration], the loop runs on without a call. *)
Lemma monitor_unknown (cb : option callback) (lines : list string)
  (log : list Sample) :
  Forall (fun line => duration_block line None = Ok None) lines ->
  monitor cb lines None log = (Ok None, log).
Proof.
  induction 1 as [|line rest Hline _ IH]; [reflexivity|].
  rewrite monitor_cons, Hline, progress_block_eq.
  now rewrite progress_sample_gate.
Qed.

(** With a zero [duration] the loop runs to the end of the stream without a
    call and without an exception. *)
Lemma monitor_zero (cb : option callback) (z : float) (lines : list string)
  (log : list Sample) :
  truthy z = false ->
  monitor cb lines (Some z) log = (Ok (Some z), log).
Proof.
  intros Hz. induction lines as [|line rest IH]; [reflexivity|].
  rewrite monitor_cons, duration_block_known, progress_block_eq.
  now rewrite progress_sample_gate.
Qed.


(** A line on which neither the duration pattern nor the elapsed-time
    pattern matches is passed over: [duration] and the log stay as they are
    and nothing is raised. *)
Lemma unmatched_line_is_skipped (cb : option callback) (line : string)
  (rest : list string) (duration : option float) (log : list Sample) :
  search duration_re line = None ->
  search time_re line = None ->
  monitor cb (line :: rest) duration log = monitor cb rest duration log.
Proof.
  intros Hd Ht.
  assert (Hdur : duration_block line duration = Ok duration).
  { unfold duration_block. rewrite Hd. now destruct (contains _ _ && _). }
  assert (Hs : progress_sample line duration = Ok None).
  { unfold progress_sample. rewrite Ht. now destruct (contains _ _). }
  now rewrite monitor_cons, Hdur, progress_block_eq, Hs.
Qed.

(** *** The elapsed-time pattern *)

Ltac lit_char H :=
  one_char H;
  match goal with
  | Hc : cls_match (Lit _) _ = true |- _ =>
      cbn [cls_match] in Hc; apply Ascii.eqb_eq in Hc; subst
  end.

(** Where [time_re] matches, the text begins with ["time="] and the three
    groups are digits, digits, and digits with a point among them. *)
Lemma time_re_groups (t : string) (gs : list string) :
  match_here time_re t [] t = Some gs ->
  startswith t "time=" = true
  /\ exists h m s f,
      gs = [h; m; s ++ "." ++ f]
      /\ (h <> "" /\ all_of Digit h = true)
      /\ (m <> "" /\ all_of Digit m = true)
      /\ (s <> "" /\ all_of Digit s = true)
      /\ (f <> "" /\ all_of Digit f = true).
Proof.
  unfold time_re. cbn [lits app]. intros H.
  do 5 lit_char H.
  split; [reflexivity|].
  one_run H h Hh1 Hh2. cbn [match_here] in H. rewrite take_append in H.
  lit_char H.
  one_run H m Hm1 Hm2. cbn [match_here] in H. rewrite take_append in H.
  lit_char H.
  one_run H s Hs1 Hs2. lit_char H.
  one_run H f Hf1 Hf2. cbn [match_here] in H.
  match type of H with
  | context [take _ (s ++ String "." (f ++ ?suf))] =>
      replace (s ++ String "." (f ++ suf)) with ((s ++ "." ++ f) ++ suf) in H
        by (now rewrite append_assoc)
  end.
  rewrite take_append in H. injection H as <-.
  exists h, m, s, f. repeat split; assumption.
Qed.

(** The groups of [time_re] always convert: lines 96-97 raise nothing. *)
Lemma time_re_converts (line : string) (gs : list string) :
  search time_re line = Some gs ->
  contains "time=" line = true /\ exists elapsed, to_seconds gs = Ok elapsed.
Proof.
  intros H. apply search_inv in H as (skipped & t & -> & H).
  apply time_re_groups in H
    as (Ht & h & m & s & f & -> & [Hh1 Hh2] & [Hm1 Hm2] & [Hs1 Hs2]
        & [_ Hf2]).
  split; [now apply contains_append|].
  destruct (float_of_digits h Hh1 Hh2) as [hours Hhours].
  destruct (float_of_digits m Hm1 Hm2) as [minutes Hminutes].
  destruct (float_of_digits_point_digits s f Hs1 Hs2 Hf2)
    as [seconds Hseconds].
  unfold to_seconds. cbn [unpack3 bind].
  rewrite Hhours, Hminutes, Hseconds. cbn [bind]. eauto.
Qed.

(** *** The exceptions of the loop body *)

Lemma to_seconds_raises (gs : list string) (e : exc) :
  to_seconds gs = Raise e -> e = ValueError.
Proof.
  unfold to_seconds, unpack3.
  destruct gs as [|a [|b [|c [|x gs]]]]; cbn [bind]; try congruence.
  destruct (float_of_str a) as [h|e1] eqn:Ha; cbn [bind];
    [|intros [= <-]; exact (float_of_str_raises _ _ Ha)].
  destruct (float_of_str b) as [m|e2] eqn:Hb; cbn [bind];
    [|intros [= <-]; exact (float_of_str_raises _ _ Hb)].
  destruct (float_of_str c) as [sec|e3] eqn:Hc; cbn [bind];
    [discriminate | intros [= <-]; exact (float_of_str_raises _ _ Hc)].
Qed.

Lemma duration_block_raises (line : string) (duration : option float)
  (e : exc) :
  duration_block line duration = Raise e -> e = ValueError.
Proof.
  unfold duration_block.
  destruct (contains "Duration" line && _); [|discriminate].
  destruct (Re.search duration_re line) as [gs|]; [|discriminate].
  destruct (to_seconds gs) as [d|e0] eqn:Hd; cbn [bind]; [discriminate|].
  intros [= <-]. exact (to_seconds_raises _ _ Hd).
Qed.

Lemma int_of_number_raises (a : number) (e : exc) :
  int_of_number a = Raise e -> conversion_error e = true.
Proof.
  destruct a as [z|x]; [discriminate|].
  destruct x; simpl; intros [= <-]; reflexivity.
Qed.

Lemma number_floordiv_60 (a : number) : exists q, number_floordiv a 60 = Ok q.
Proof.
  destruct a as [z|x]; cbn [number_floordiv]; [simpl; eauto|].
  destruct (floordiv_60 x) as [q ->]. cbn [bind]; eauto.
Qed.

Lemma number_mod_60 (a : number) : exists r, number_mod a 60 = Ok r.
Proof.
  destruct a as [z|x]; cbn [number_mod]; [simpl; eauto|].
  destruct (modulo_60 x) as [r ->]. cbn [bind]; eauto.
Qed.

(** Past the gate of line 95 the body raises nothing but what [float()],
    [int()] and [group()] raise: neither division is by zero. *)
Lemma sample_of_raises (gs : list string) (d : float) (line : string)
  (e : exc) :
  truthy d = true -> sample_of gs d line = Raise e -> conversion_error e = true.
Proof.
  intros Hd. unfold sample_of.
  destruct (to_seconds gs) as [elapsed|e0] eqn:He; cbn [bind].
  2:{ intros [= <-]. now rewrite (to_seconds_raises _ _ He). }
  rewrite div_ok by (unfold truthy in Hd; now destruct (eqb d zero)).
  cbn [bind].
  match goal with
  | |- context [bind ?m _] => destruct m as [speed|e0] eqn:Hspeed
  end; cbn [bind].
  2:{ intros [= <-].
      destruct (Re.search speed_re line) as [sgs|]; [|discriminate].
      destruct sgs as [|g sgs]; cbn [group1 bind] in Hspeed.
      - now injection Hspeed as <-.
      - now rewrite (float_of_str_raises _ _ Hspeed). }
  match goal with
  | |- context [bind ?m _] => destruct m as [eta|e0] eqn:Heta
  end; cbn [bind].
  2:{ destruct (ltb zero speed) eqn:Hlt; [|discriminate].
      rewrite div_ok in Heta by now apply ltb_zero_nonzero.
      discriminate. }
  destruct (number_floordiv_60 eta) as [q ->]. cbn [bind].
  destruct (int_of_number q) as [eta_minutes|e0] eqn:Hm; cbn [bind].
  2:{ intros [= <-]. exact (int_of_number_raises _ _ Hm). }
  destruct (number_mod_60 eta) as [r ->]. cbn [bind].
  destruct (int_of_number r) as [eta_seconds|e0] eqn:Hsec; cbn [bind].
  2:{ intros [= <-]. exact (int_of_number_raises _ _ Hsec). }
  discriminate.
Qed.

Lemma progress_sample_raises (line : string) (duration : option float)
  (e : exc) :
  progress_sample line duration = Raise e -> conversion_error e = true.
Proof.
  unfold progress_sample.
  destruct (contains "time=" line); [|discriminate].
  destruct (Re.search time_re line) as [gs|]; [|discriminate].
  destruct duration as [d|]; [|discriminate].
  destruct (truthy d) eqn:Hd; [|discriminate].
  destruct (sample_of gs d line) as [s|e0] eqn:Hs; cbn [bind]; [discriminate|].
  intros [= <-]. exact (sample_of_raises _ _ _ _ Hd Hs).
Qed.



End MsubFacts.

(** ** The command *)

Section Command.

Import PyStr PyStrFacts Msub.

Variables inputvideo sub : string.

(** C1, as the specification states it, fails: in type 1 a requested
    output that does not contain [".mp4"] is passed on as it is, so the
    output path keeps an extension that is not [".mkv"]. *)
Lemma soft_mux_keeps_avi :
  exists command,
    build_command 1 "video.mp4" "subs.srt" "movie.avi"
    = Some ("movie.avi", command)
    /\ endswith "movie.avi" ".mkv" = false.
Proof. eexists; split; reflexivity. Qed.

(** C1, amended: when the requested output path ends in [".mp4"], the
    command of type 1 is built with an output path that ends in [".mkv"],
    and that path is the last argument of the command; a requested path
    that does not contain [".mp4"] is passed on as it is, so it keeps its
    extension. *)
Theorem soft_mux_mp4_to_mkv (output : string) :
  (endswith output ".mp4" = true ->
   exists out command,
     build_command 1 inputvideo sub output = Some (out, command)
     /\ endswith out ".mkv" = true
     /\ last command "" = out)
  /\ (contains ".mp4" output = false ->
      exists command,
        build_command 1 inputvideo sub output = Some (output, command)
        /\ last command "" = output).
Proof.
  split.
  - intros H. apply endswith_split in H as [stem ->].
    eexists; eexists. split; [reflexivity|]. split; [|reflexivity].
    change (stem ++ ".mp4") with (stem ++ ".mp4" ++ "").
    rewrite replace_mp4_append.
    apply (endswith_append (replace stem ".mp4" ".mkv") ".mkv").
  - intros H. eexists. cbn [build_command Z.eqb Pos.eqb].
    rewrite (replace_mp4_absent output H). split; reflexivity.
Qed.

(** C3, as the specification states it, fails: an occurrence of [".mp4"]
    in front of the trailing extension is rewritten as well. *)
Lemma soft_mux_rewrites_inner_mp4 :
  exists out command,
    build_command 1 "video.mp4" "subs.srt" "clip.mp4.cut.mp4"
    = Some (out, command)
    /\ out <> "clip.mp4.cut.mkv".
Proof. eexists; eexists; split; [reflexivity | discriminate]. Qed.

(** C3, amended: in type 1 every occurrence of [".mp4"] in the requested
    path, wherever it is, becomes [".mkv"] (the path is rewritten
    occurrence by occurrence, from the left); no [".mp4"] is left in the
    output path; and a path without [".mp4"] is passed on unchanged. *)
Theorem soft_mux_rewrites_every_mp4 (a b : string) :
  (exists command,
      build_command 1 inputvideo sub (a ++ ".mp4" ++ b)
      = Some (replace a ".mp4" ".mkv" ++ ".mkv" ++ replace b ".mp4" ".mkv",
              command))
  /\ (exists out command,
         build_command 1 inputvideo sub a = Some (out, command)
         /\ contains ".mp4" out = false)
  /\ (contains ".mp4" a = false ->
      exists command, build_command 1 inputvideo sub a = Some (a, command)).
Proof.
  split; [|split].
  - eexists. cbn [build_command Z.eqb Pos.eqb].
    rewrite replace_mp4_append. reflexivity.
  - eexists; eexists. split; [reflexivity | apply replace_mp4_gone].
  - intros H. eexists. cbn [build_command Z.eqb Pos.eqb].
    rewrite (replace_mp4_absent a H). reflexivity.
Qed.

End Command.

(** The default output, ["output.mp4"], and a path that ends in
    [".avi"]. *)
Lemma soft_mux_mp4_to_mkv_witness :
  (exists out command,
      Msub.build_command 1 "video.mp4" "subs.srt" Msub.default_output
      = Some (out, command)
      /\ PyStr.endswith out ".mkv" = true
      /\ last command "" = out)
  /\ (exists command,
         Msub.build_command 1 "video.mp4" "subs.srt" "movie.avi"
         = Some ("movie.avi", command)
         /\ last command "" = "movie.avi").
Proof.
  split.
  - apply (proj1 (soft_mux_mp4_to_mkv "video.mp4" "subs.srt"
                    Msub.default_output)).
    reflexivity.
  - apply (proj2 (soft_mux_mp4_to_mkv "video.mp4" "subs.srt" "movie.avi")).
    reflexivity.
Defined.

(** A path without [".mp4"] is the output path. *)
Lemma soft_mux_rewrites_every_mp4_witness :
  exists command,
    Msub.build_command 1 "video.mp4" "subs.srt" "movie.avi"
    = Some ("movie.avi", command).
Proof.
  apply (proj2 (proj2
    (soft_mux_rewrites_every_mp4 "video.mp4" "subs.srt" "movie.avi" ""))).
  reflexivity.
Defined.

(** ** The progress loop *)

Section Monitor.

Import PyStr PyFloat PyFloatFacts Msub MsubFacts.

Variable progress_callback : option callback.

(** C4: on the stream [Duration: 00:10:00.00], then
    [time=00:05:00.00 speed=2.0x], a callback is called exactly once, with
    percentage 50.0, speed 2.0 and eta ["2m 30s"]; so it is when the two
    markers stand inside lines as ffmpeg prints them. *)
Theorem duration_then_progress_reports_once (f : callback) :
  snd (monitor (Some f)
         ["Duration: 00:10:00.00"; "time=00:05:00.00 speed=2.0x"] None [])
  = [{| percentage := of_Z 50; speed := of_Z 2; eta := "2m 30s" |}]
  /\ snd (monitor (Some f)
            ["  Duration: 00:10:00.00, start: 0.000000, bitrate: 1205 kb/s";
             "frame= 7200 fps=120 q=-1.0 size=45056kB time=00:05:00.00 bitrate=1230.2kbits/s speed=2.0x"]
            None [])
     = [{| percentage := of_Z 50; speed := of_Z 2; eta := "2m 30s" |}].
Proof.
  split; rewrite !monitor_cons; vm_compute; destruct (f _ _); reflexivity.
Qed.


(** With a duration line of twenty minutes after the one of ten, five
    minutes elapsed are still reported as 50 percent. *)
Example second_duration_is_ignored (f : callback) :
  snd (monitor (Some f)
         ["Duration: 00:10:00.00"; "Duration: 00:20:00.00";
          "time=00:05:00.00 speed=2.0x"] None [])
  = [{| percentage := of_Z 50; speed := of_Z 2; eta := "2m 30s" |}].
Proof.
  rewrite !monitor_cons; vm_compute; destruct (f _ _); reflexivity.
Qed.

(** C6: while [duration] is unknown the progress block reports nothing,
    whatever the line carries; a stream none of whose lines sets
    [duration] is read to its end without a call of the callback. *)
Theorem no_report_before_duration (lines : list string) (log : list Sample) :
  Forall (fun line => duration_block line None = Ok None) lines ->
  monitor progress_callback lines None log = (Ok None, log)
  /\ forall line log',
      progress_sample line None = Ok None
      /\ progress_block progress_callback line None log' = (Ok tt, log').
Proof.
  intros H. split; [now apply monitor_unknown|].
  intros line log'.
  assert (Hs : progress_sample line None = Ok None)
    by now apply progress_sample_gate.
  split; [exact Hs|]. now rewrite progress_block_eq, Hs.
Qed.

(** C7: on a progress line whose speed marker converts to zero, the sample
    is computed without an exception and its eta is ["0m 0s"]; and no line,
    whatever [duration] is, makes the progress block divide by zero. *)
Theorem zero_speed_eta_is_zero (line : string) (d : float)
  (gs sgs : list string) (g : string) (zero_speed : float) :
  Re.search time_re line = Some gs ->
  truthy d = true ->
  Re.search speed_re line = Some (g :: sgs) ->
  float_of_str g = Ok zero_speed ->
  eqb zero_speed zero = true ->
  (exists s,
      progress_sample line (Some d) = Ok (Some s)
      /\ eta s = "0m 0s" /\ speed s = zero_speed)
  /\ forall line' duration,
      progress_sample line' duration <> Raise ZeroDivisionError.
Proof.
  intros Hgs Hd Hsgs Hg Hz. split.
  - destruct (time_re_converts line gs Hgs) as [Htime [elapsed Hel]].
    apply eqb_zero_inv in Hz as [sg ->].
    unfold progress_sample. rewrite Htime, Hgs, Hd.
    unfold sample_of. rewrite Hel. cbn [bind].
    rewrite div_ok by (unfold truthy in Hd; now destruct (eqb d zero)).
    cbn [bind]. rewrite Hsgs. cbn [group1 bind]. rewrite Hg. cbn [bind].
    replace (ltb zero (S754_zero sg)) with false by now destruct sg.
    eexists. split; [reflexivity|]. split; reflexivity.
  - intros line' duration H.
    apply progress_sample_raises in H. discriminate.
Qed.

(** C9: when the first line that sets [duration] sets it to zero, line 95
    takes the zero for an unknown duration: the whole stream is read, no
    sample is reported and no exception, so no division by zero, ends the
    loop. *)
Theorem zero_duration_never_reports (pre : list string) (line : string)
  (post : list string) (z : float) (log : list Sample) :
  Forall (fun l => duration_block l None = Ok None) pre ->
  duration_block line None = Ok (Some z) ->
  truthy z = false ->
  monitor progress_callback (pre ++ line :: post) None log
  = (Ok (Some z), log).
Proof.
  intros Hpre Hline Hz.
  induction Hpre as [|l pre Hl _ IH]; cbn [app].
  - rewrite monitor_cons, Hline, progress_block_eq.
    rewrite progress_sample_gate by exact Hz.
    now apply monitor_zero.
  - rewrite monitor_cons, Hl, progress_block_eq.
    now rewrite progress_sample_gate.
Qed.

End Monitor.


(** Two progress lines and no duration line. *)
Lemma no_report_before_duration_witness :
  Msub.monitor (Some (fun _ _ => Ok tt))
    ["frame= 24 fps=0.0 time=00:00:01.00 speed=1.0x";
     "time=00:05:00.00 speed=2.0x"] None []
  = (Ok None, []).
Proof.
  apply (no_report_before_duration (Some (fun _ _ => Ok tt))
           ["frame= 24 fps=0.0 time=00:00:01.00 speed=1.0x";
            "time=00:05:00.00 speed=2.0x"] []).
  repeat constructor.
Defined.

(** A progress line with [speed=0.0x], half way through ten minutes. *)
Lemma zero_speed_eta_is_zero_witness :
  exists s,
    Msub.progress_sample "time=00:05:00.00 speed=0.0x"
      (Some (PyFloat.of_Z 600)) = Ok (Some s)
    /\ Msub.eta s = "0m 0s" /\ Msub.speed s = PyFloat.zero.
Proof.
  apply (zero_speed_eta_is_zero "time=00:05:00.00 speed=0.0x"
           (PyFloat.of_Z 600) ["00"; "05"; "00.00"] [] "0.0"
           PyFloat.zero);
    vm_compute; reflexivity.
Defined.

(** A zero duration, progress lines around it and a later duration. *)
Lemma zero_duration_never_reports_witness :
  Msub.monitor (Some (fun _ _ => Ok tt))
    (["time=00:00:01.00 speed=1.0x"] ++
     "Duration: 00:00:00.00" ::
     ["time=00:05:00.00 speed=2.0x"; "Duration: 00:10:00.00";
      "time=00:06:00.00 speed=2.0x"]) None []
  = (Ok (Some PyFloat.zero), []).
Proof.
  apply (zero_duration_never_reports (Some (fun _ _ => Ok tt))
           ["time=00:00:01.00 speed=1.0x"] "Duration: 00:00:00.00"
           ["time=00:05:00.00 speed=2.0x"; "Duration: 00:10:00.00";
            "time=00:06:00.00 speed=2.0x"] PyFloat.zero []).
  - repeat constructor.
  - vm_compute. reflexivity.
  - reflexivity.
Defined.

(** ** The function *)

Section MergeSub.

Import PyStr PyFloat Msub MsubFacts.

Variable w : world.
Variable type : Z.
Variables inputvideo sub output : string.
Variable progress_callback : option callback.

(** C2, at inputs on which the code departs from it: a duration marker
    with a comma (or any character other than the point) between the
    seconds and their fraction is matched by the pattern of line 87, whose
    point is not escaped, and a speed marker with two points by the pattern
    of line 101; [float()] then rejects the group, the [ValueError] ends
    the loop and the function returns [False], although the program exits
    with code 0 and the same run without that line returns [True]. *)
Lemma malformed_marker_fails_the_job :
  returned (mergeSub (ffmpeg_prints ["Duration: 00:10:00,00"] 0)
              3 "video.mp4" "subs.srt" default_output None) = Ok false
  /\ returned (mergeSub
                 (ffmpeg_prints ["Duration: 00:10:00.00";
                                 "time=00:05:00.00 speed=1.2.3x"] 0)
                 3 "video.mp4" "subs.srt" default_output None) = Ok false
  /\ returned (mergeSub (ffmpeg_prints [] 0)
                 3 "video.mp4" "subs.srt" default_output None) = Ok true
  /\ Re.search duration_re "Duration: 00:10:00,00"
     = Some ["00"; "10"; "00,00"]
  /\ duration_block "Duration: 00:10:00,00" None = Raise ValueError
  /\ progress_sample "time=00:05:00.00 speed=1.2.3x" (Some (of_Z 600))
     = Raise ValueError.
Proof. repeat split; vm_compute; reflexivity. Qed.

(** C8: when the input video does not exist, the function returns [False],
    starts no program and does not call the callback. *)
Theorem missing_video_returns_false :
  path_exists w inputvideo = false ->
  mergeSub w type inputvideo sub output progress_callback
  = {| returned := Ok false; spawned := []; reported := [] |}.
Proof.
  intros H. unfold mergeSub. now rewrite H.
Qed.


(** The handler's own print: an [Exception] of the callback whose text
    does not print is caught, and what line 126 raises on it leaves the
    function. *)
Example unprintable_exception_leaves_the_handler :
  returned (mergeSub
              (ffmpeg_prints ["Duration: 00:10:00.00";
                              "time=00:05:00.00 speed=2.0x"] 0)
              1 "video.mp4" "subs.srt" default_output
              (Some (fun _ _ => Raise (Raised true (Some ValueError)))))
  = Raise ValueError.
Proof. vm_compute. reflexivity. Qed.


End MergeSub.

(** A world without files. *)
Lemma missing_video_returns_false_witness :
  Msub.mergeSub
    {| Msub.path_exists := fun _ => false; Msub.Popen := fun _ => None |}
    3 "video.mp4" "subs.srt" Msub.default_output (Some (fun _ _ => Ok tt))
  = {| Msub.returned := Ok false; Msub.spawned := []; Msub.reported := [] |}.
Proof.
  apply (missing_video_returns_false
           {| Msub.path_exists := fun _ => false;
              Msub.Popen := fun _ => None |}).
  reflexivity.
Defined.


(** * Further properties *)
(** ** The loop, further *)

Module MonitorFacts.

Import Py PyStr PyStrFacts Re ReFacts PyFloat PyFloatFacts Msub MsubLines
  MsubFacts.

Local Open Scope py_scope.

(** A callback that always returns leaves the course of the loop as it is
    without one. *)
Lemma monitor_returning (f : callback) (lines : list string) :
  (forall log s, f log s = Ok tt) ->
  forall duration log log0,
    fst (monitor (Some f) lines duration log)
    = fst (monitor None lines duration log0).
Proof.
  intros Hf. induction lines as [|line rest IH]; intros duration log log0;
    [reflexivity|].
  rewrite !monitor_cons.
  destruct (duration_block line duration) as [d'|e]; [|reflexivity].
  rewrite !progress_block_eq.
  destruct (progress_sample line d') as [[s|]|e]; cbn [report ret];
    [rewrite Hf| |reflexivity]; apply IH.
Qed.

Lemma progress_sample_time (line : string) (duration : option float)
  (s : Sample) :
  progress_sample line duration = Ok (Some s) ->
  contains "time=" line = true.
Proof.
  unfold progress_sample. now destruct (contains "time=" line).
Qed.

(** With a callback that raises whenever it is called, the loop either
    never calls it or ends at its first call. *)
Lemma monitor_raising (f : callback) (lines : list string) :
  (forall log s, exists e, f log s = Raise e) ->
  forall duration log,
    snd (monitor (Some f) lines duration log) = log
    \/ exists s e,
        f log s = Raise e
        /\ monitor (Some f) lines duration log = (Raise e, (log ++ [s])%list).
Proof.
  intros Hf. induction lines as [|line rest IH]; intros duration log;
    [now left|].
  rewrite monitor_cons.
  destruct (duration_block line duration) as [d'|e]; [|now left].
  rewrite progress_block_eq.
  destruct (progress_sample line d') as [[s|]|e]; [|apply IH|now left].
  cbn [report]. destruct (Hf log s) as [e He]. rewrite He.
  right. now exists s, e.
Qed.

End MonitorFacts.
(** ** The patterns, further *)

Module PatternFacts.

Import Py PyStr PyStrFacts Re ReFacts PyFloat PyFloatFacts Msub MsubFacts.

Local Open Scope py_scope.

(** Where [speed_re] matches there is one group, a run of digits and
    points. *)
Lemma speed_re_groups (t : string) (gs : list string) :
  match_here speed_re t [] t = Some gs ->
  exists g, gs = [g] /\ g <> "" /\ all_of DigitOrDot g = true.
Proof.
  unfold speed_re. cbn [lits app]. intros H.
  do 6 lit_char H.
  one_run H g Hg1 Hg2. cbn [match_here] in H. rewrite take_append in H.
  lit_char H. cbn [match_here rev app] in H. injection H as <-.
  exists g. repeat split; assumption.
Qed.

Lemma speed_re_one_group (line : string) (gs : list string) :
  search speed_re line = Some gs ->
  exists g, gs = [g] /\ g <> "" /\ all_of DigitOrDot g = true.
Proof.
  intros H. apply search_inv in H as (skipped & t & _ & H).
  exact (speed_re_groups t gs H).
Qed.

(** Where [duration_re] matches, the text begins with ["Duration: "], the
    first two groups are digits and the third is digits, one character that
    is no line feed, and digits. *)
Lemma duration_re_groups (t : string) (gs : list string) :
  match_here duration_re t [] t = Some gs ->
  startswith t "Duration: " = true
  /\ exists h m s c f,
      gs = [h; m; s ++ String c f]
      /\ (h <> "" /\ all_of Digit h = true)
      /\ (m <> "" /\ all_of Digit m = true)
      /\ (s <> "" /\ all_of Digit s = true)
      /\ cls_match Dot c = true
      /\ (f <> "" /\ all_of Digit f = true).
Proof.
  unfold duration_re. cbn [lits app]. intros H.
  do 10 lit_char H.
  split; [reflexivity|].
  one_run H h Hh1 Hh2. cbn [match_here] in H. rewrite take_append in H.
  lit_char H.
  one_run H m Hm1 Hm2. cbn [match_here] in H. rewrite take_append in H.
  lit_char H.
  one_run H s Hs1 Hs2. one_char H.
  one_run H f Hf1 Hf2. cbn [match_here] in H.
  match type of H with
  | context [take _ (s ++ String ?c (f ++ ?suf))] =>
      replace (s ++ String c (f ++ suf)) with ((s ++ String c f) ++ suf) in H
        by (now rewrite append_assoc);
      rewrite take_append in H; injection H as <-;
      exists h, m, s, c, f
  end.
  repeat split; assumption.
Qed.

(** Past the gate of line 95 the body raises a [ValueError] or an
    [OverflowError] or nothing: [group(1)] is there whenever [speed_re]
    matches. *)
Lemma sample_of_raises_conversion (gs : list string) (d : float)
  (line : string) (e : exc) :
  truthy d = true -> sample_of gs d line = Raise e ->
  e = ValueError \/ e = OverflowError.
Proof.
  intros Hd H. pose proof (sample_of_raises gs d line e Hd H) as Hc.
  destruct e; try discriminate; auto.
  exfalso. revert H. unfold sample_of.
  destruct (to_seconds gs) as [elapsed|e0] eqn:He; cbn [bind].
  2:{ intros [= ->]. apply to_seconds_raises in He. discriminate. }
  rewrite div_ok by (unfold truthy in Hd; now destruct (eqb d zero)).
  cbn [bind].
  destruct (search speed_re line) as [sgs|] eqn:Hs.
  - destruct (speed_re_one_group line sgs Hs) as (g & -> & _).
    cbn [group1 bind].
    destruct (float_of_str g) as [speed|e0] eqn:Hg; cbn [bind].
    2:{ intros [= ->]. apply float_of_str_raises in Hg. discriminate. }
    destruct (ltb zero speed) eqn:Hlt.
    + rewrite div_ok by now apply ltb_zero_nonzero.
      cbn [bind].
      match goal with
      | |- context [number_floordiv ?a 60] =>
          destruct (number_floordiv_60 a) as [q ->];
          destruct (number_mod_60 a) as [r ->]
      end.
      cbn [bind].
      destruct (int_of_number q) as [em|e0] eqn:Hm; cbn [bind].
      2:{ intros [= ->]. destruct q as [z|x]; [discriminate|].
          destruct x; discriminate. }
      destruct (int_of_number r) as [es|e0] eqn:Hr; cbn [bind];
        [discriminate|].
      intros [= ->]. destruct r as [z|x]; [discriminate|].
      destruct x; discriminate.
    + cbn [bind]. discriminate.
  - cbn [bind].
    replace (ltb zero (of_Z 1)) with true by reflexivity.
    rewrite div_ok by reflexivity. cbn [bind].
    match goal with
    | |- context [number_floordiv ?a 60] =>
        destruct (number_floordiv_60 a) as [q ->];
        destruct (number_mod_60 a) as [r ->]
    end.
    cbn [bind].
    destruct (int_of_number q) as [em|e0] eqn:Hm; cbn [bind].
    2:{ intros [= ->]. destruct q as [z|x]; [discriminate|].
        destruct x; discriminate. }
    destruct (int_of_number r) as [es|e0] eqn:Hr; cbn [bind];
      [discriminate|].
    intros [= ->]. destruct r as [z|x]; [discriminate|].
    destruct x; discriminate.
Qed.

End PatternFacts.

(** ** The function, further *)

Module MergeSubFacts.

Import Py PyStr PyStrFacts Re ReFacts PyFloat PyFloatFacts Msub MsubFacts.

Local Open Scope py_scope.

(** The function once both files exist, the command is built and the
    program is started. *)
Lemma mergeSub_run (w : world) (type : Z) (inputvideo sub output : string)
  (cb : option callback) (out : string) (command : list string)
  (p : process) :
  path_exists w inputvideo = true ->
  path_exists w sub = true ->
  build_command type inputvideo sub output = Some (out, command) ->
  Popen w command = Some p ->
  returned (mergeSub w type inputvideo sub output cb)
  = except_Exception
      (_ <- fst (monitor cb (stderr p) None []) ;;
       Ok (returncode p =? 0)%Z)
  /\ spawned (mergeSub w type inputvideo sub output cb) = [command]
  /\ reported (mergeSub w type inputvideo sub output cb)
     = snd (monitor cb (stderr p) None []).
Proof.
  intros Hv Hs Hb Hp. unfold mergeSub. rewrite Hv, Hs, Hb, Hp. cbn [negb].
  now destruct (monitor cb (stderr p) None []) as [r log].
Qed.

(** The function when it stops before the program is started, or when the
    program cannot be started: the cases in which nothing is run. *)
Lemma mergeSub_cases (w : world) (type : Z) (inputvideo sub output : string)
  (cb : option callback) :
  (mergeSub w type inputvideo sub output cb
   = {| returned := Ok false; spawned := []; reported := [] |}
   /\ (path_exists w inputvideo = false \/ path_exists w sub = false
       \/ build_command type inputvideo sub output = None))
  \/ (exists out command,
         path_exists w inputvideo = true /\ path_exists w sub = true
         /\ build_command type inputvideo sub output = Some (out, command)
         /\ Popen w command = None
         /\ mergeSub w type inputvideo sub output cb
            = {| returned := Ok false; spawned := [command];
                 reported := [] |})
  \/ (exists out command p,
         path_exists w inputvideo = true /\ path_exists w sub = true
         /\ build_command type inputvideo sub output = Some (out, command)
         /\ Popen w command = Some p).
Proof.
  unfold mergeSub.
  destruct (path_exists w inputvideo); cbn [negb]; [|left; auto].
  destruct (path_exists w sub); cbn [negb]; [|left; auto].
  destruct (build_command type inputvideo sub output) as [[out command]|];
    [|left; auto].
  destruct (Popen w command) as [p|] eqn:Hp.
  - right; right. exists out, command, p. auto.
  - right; left. exists out, command. auto.
Qed.

Lemma length_replace_mp4 (s : string) :
  length (replace s ".mp4" ".mkv") = length s.
Proof.
  remember (length s) as n eqn:Hn.
  revert s Hn; induction n as [n IH] using lt_wf_ind; intros s Hn.
  destruct (replace_mp4_cases s)
    as [[-> Hr] | [[t [-> Hr]] | [c [s' [-> [Hs Hr]]]]]]; rewrite Hr.
  - now subst n.
  - cbn [append length] in *.
    rewrite (IH (length t)) by (subst n; lia || reflexivity). now subst n.
  - cbn [length] in *.
    rewrite (IH (length s')) by (subst n; lia || reflexivity). now subst n.
Qed.

Lemma valid_type_cases (type : Z) :
  (1 <= type <= 5)%Z ->
  type = 1%Z \/ type = 2%Z \/ type = 3%Z \/ type = 4%Z \/ type = 5%Z.
Proof. lia. Qed.

(** A type outside 1..5 has no command. *)
Lemma no_command_outside_1_to_5 (type : Z)
  (inputvideo sub output : string) :
  (type < 1 \/ 5 < type)%Z ->
  build_command type inputvideo sub output = None.
Proof.
  intros H. unfold build_command.
  repeat match goal with
    | |- context [(type =? ?k)%Z] =>
        destruct (Z.eqb_spec type k); [lia|]
    end.
  reflexivity.
Qed.

End MergeSubFacts.

(** ** Further properties of the command *)

Section CommandMore.

Import PyStr PyStrFacts Msub MergeSubFacts.

Variables inputvideo sub output : string.

(** X1: for each of the five types the command begins with ["ffmpeg"],
    ends with the output path and gives the input video as the first
    [-i] input; the types other than 1 pass the requested output path on
    unchanged. *)
Theorem command_shape (type : Z) :
  (1 <= type <= 5)%Z ->
  exists out command,
    build_command type inputvideo sub output = Some (out, command)
    /\ hd "" command = "ffmpeg"
    /\ last command "" = out
    /\ (type <> 1%Z -> out = output)
    /\ exists before after,
        command = (before ++ "-i" :: inputvideo :: after)%list
        /\ ~ In "-i" before.
Proof.
  intros H.
  destruct (valid_type_cases type H) as [-> | [-> | [-> | [-> | ->]]]];
    eexists; eexists; (split; [reflexivity|]);
    (split; [reflexivity|]); (split; [reflexivity|]);
    (split; [intros; congruence || reflexivity|]).
  1-3,5: exists ["ffmpeg"]; eexists; split; [reflexivity|];
    intros [E|[]]; discriminate E.
  exists ["ffmpeg"; "-hwaccel"; "cuda"]; eexists; split; [reflexivity|].
  intros [E|[E|[E|[]]]]; discriminate E.
Qed.

(** X2: rewriting the output path of type 1 again changes nothing, and the
    rewrite keeps the length of the path. *)
Theorem soft_mux_rewrite_is_idempotent (out : string)
  (command : list string) :
  build_command 1 inputvideo sub output = Some (out, command) ->
  build_command 1 inputvideo sub out = Some (out, command)
  /\ length out = length output.
Proof.
  cbn [build_command Z.eqb Pos.eqb]. intros [= <- <-].
  change (replace_scan ".mp4" ".mkv" 0 output)
    with (replace output ".mp4" ".mkv").
  rewrite (replace_mp4_absent _ (replace_mp4_gone output)).
  split; [reflexivity | apply length_replace_mp4].
Qed.

End CommandMore.

(** The command of type 4. *)
Lemma command_shape_witness :
  exists out command,
    Msub.build_command 4 "video.mp4" "subs.srt" "burned.mp4"
    = Some (out, command)
    /\ hd "" command = "ffmpeg"
    /\ last command "" = out
    /\ (4%Z <> 1%Z -> out = "burned.mp4")
    /\ exists before after,
        command = (before ++ "-i" :: "video.mp4" :: after)%list
        /\ ~ In "-i" before.
Proof.
  apply (command_shape "video.mp4" "subs.srt" "burned.mp4" 4). lia.
Defined.

(** A path with two occurrences, rewritten once and again. *)
Lemma soft_mux_rewrite_is_idempotent_witness :
  Msub.build_command 1 "video.mp4" "subs.srt" "clip.mkv.cut.mkv"
  = Some ("clip.mkv.cut.mkv",
          ["ffmpeg"; "-i"; "video.mp4"; "-i"; "subs.srt"; "-map"; "0";
           "-map"; "1"; "-c"; "copy"; "clip.mkv.cut.mkv"])
  /\ length "clip.mkv.cut.mkv" = length "clip.mp4.cut.mp4".
Proof.
  apply (soft_mux_rewrite_is_idempotent "video.mp4" "subs.srt"
           "clip.mp4.cut.mp4").
  reflexivity.
Defined.

(** ** Further properties of the loop *)

Section MonitorMore.

Import PyStr PyStrFacts Re ReFacts PyFloat PyFloatFacts Msub MsubFacts
  MonitorFacts PatternFacts.

Variable progress_callback : option callback.

(** X3: where the elapsed-time pattern matches, the line contains
    ["time="], the groups are digits, digits, and digits with a point among
    them, and their conversion to seconds raises nothing. *)
Theorem elapsed_time_marker_converts (line : string) (gs : list string) :
  search time_re line = Some gs ->
  contains "time=" line = true
  /\ (exists h m s f,
         gs = [h; m; s ++ "." ++ f]
         /\ all_of Digit (h ++ m ++ s ++ f) = true)
  /\ exists elapsed, to_seconds gs = Ok elapsed.
Proof.
  intros H. destruct (time_re_converts line gs H) as [Hc He].
  split; [exact Hc|]. split; [|exact He].
  apply search_inv in H as (skipped & t & _ & H).
  apply time_re_groups in H
    as (_ & h & m & s & f & -> & [_ Hh] & [_ Hm] & [_ Hs] & [_ Hf]).
  exists h, m, s, f. split; [reflexivity|].
  now rewrite !all_of_append, Hh, Hm, Hs, Hf.
Qed.

(** X4: where the duration pattern matches, the third group is digits, one
    character and digits; when that character is the point, the duration
    block stores a duration. *)
Theorem duration_marker_with_point_is_stored (line : string)
  (gs : list string) :
  search duration_re line = Some gs ->
  exists h m s c f,
    gs = [h; m; s ++ String c f]
    /\ all_of Digit (h ++ m ++ s ++ f) = true
    /\ (c = "."%char ->
        exists d, duration_block line None = Ok (Some d)).
Proof.
  intros H. pose proof H as Hsearch.
  apply search_inv in H as (skipped & t & -> & H).
  apply duration_re_groups in H
    as (Ht & h & m & s & c & f & -> & [Hh1 Hh] & [Hm1 Hm] & [Hs1 Hs] & _
        & [_ Hf]).
  exists h, m, s, c, f. split; [reflexivity|].
  split; [now rewrite !all_of_append, Hh, Hm, Hs, Hf|].
  intros ->. unfold duration_block.
  rewrite contains_append, Hsearch.
  2:{ apply startswith_split in Ht. now rewrite Ht. }
  cbn [andb].
  destruct (float_of_digits h Hh1 Hh) as [hours Hhours].
  destruct (float_of_digits m Hm1 Hm) as [minutes Hminutes].
  destruct (float_of_digits_point_digits s f Hs1 Hs Hf)
    as [seconds Hseconds].
  unfold to_seconds. cbn [unpack3 bind].
  change (s ++ String "." f) with (s ++ "." ++ f).
  rewrite Hhours, Hminutes, Hseconds. cbn [bind]. eauto.
Qed.

(** X5: a progress line without a speed marker is reported with speed
    1.0. *)
Theorem default_speed_is_one (line : string) (duration : option float)
  (s : Sample) :
  search speed_re line = None ->
  progress_sample line duration = Ok (Some s) ->
  speed s = of_Z 1.
Proof.
  intros Hs. unfold progress_sample.
  destruct (contains "time=" line); [|discriminate].
  destruct (search time_re line) as [gs|]; [|discriminate].
  destruct duration as [d|]; [|discriminate].
  destruct (truthy d); [|discriminate].
  unfold sample_of. rewrite Hs.
  destruct (to_seconds gs) as [elapsed|e]; cbn [bind]; [|discriminate].
  destruct (div elapsed d) as [ratio|e]; cbn [bind]; [|discriminate].
  repeat match goal with
    | |- context [bind ?m _] =>
        lazymatch m with bind _ _ => fail | _ => idtac end;
        destruct m; cbn [bind]; [|discriminate]
    end.
  now intros [= <-].
Qed.

(** X7: the lines on which neither pattern matches can be taken out of
    the stream: the loop ends the same way with the same calls. *)
Theorem unmarked_lines_do_not_matter (lines : list string)
  (duration : option float) (log : list Sample) :
  monitor progress_callback lines duration log
  = monitor progress_callback (filter MsubLines.carries_marker lines)
      duration log.
Proof.
  revert duration log.
  induction lines as [|line rest IH]; intros duration log; [reflexivity|].
  cbn [filter]. unfold MsubLines.carries_marker at 1.
  destruct (search duration_re line) as [gs|] eqn:Hd.
  - rewrite !monitor_cons.
    destruct (duration_block line duration) as [d'|e]; [|reflexivity].
    destruct (progress_block progress_callback line d' log) as [[u|e] log']; [apply IH|].
    reflexivity.
  - destruct (search time_re line) as [gs|] eqn:Ht.
    + rewrite !monitor_cons.
      destruct (duration_block line duration) as [d'|e]; [|reflexivity].
      destruct (progress_block progress_callback line d' log) as [[u|e] log']; [apply IH|].
      reflexivity.
    + rewrite (unmatched_line_is_skipped progress_callback line rest duration log Hd Ht).
      apply IH.
Qed.

(** X8: the callback is called at most once for a line, and only for
    lines that contain ["time="]: the calls of a run are no more than
    those lines. *)
Theorem at_most_one_call_per_progress_line (lines : list string)
  (duration : option float) (log : list Sample) :
  exists new,
    snd (monitor progress_callback lines duration log) = (log ++ new)%list
    /\ List.length new <= List.length (filter (contains "time=") lines).
Proof.
  revert duration log.
  induction lines as [|line rest IH]; intros duration log.
  - exists []. split; [now rewrite app_nil_r | reflexivity].
  - rewrite monitor_cons. cbn [filter].
    destruct (duration_block line duration) as [d'|e].
    2:{ exists []. split; [now rewrite app_nil_r | cbn; lia]. }
    rewrite progress_block_eq.
    destruct (progress_sample line d') as [[s|]|e] eqn:Hs.
    + rewrite (progress_sample_time _ _ _ Hs). cbn [List.length].
      destruct progress_callback as [f|]; cbn [report ret].
      * destruct (f log s) as [u|e].
        -- destruct (IH d' (log ++ [s])%list) as [new [Hnew Hlen]].
           exists (s :: new). split; [now rewrite Hnew, <- app_assoc|].
           cbn [List.length]; lia.
        -- exists [s]. split; [reflexivity | cbn [List.length]; lia].
      * destruct (IH d' log) as [new [Hnew Hlen]].
        exists new. split; [exact Hnew | lia].
    + destruct (IH d' log) as [new [Hnew Hlen]].
      exists new. split; [exact Hnew|].
      destruct (contains "time=" line); cbn [List.length]; lia.
    + exists []. split; [now rewrite app_nil_r | cbn [List.length]; lia].
Qed.

(** X9: an exception that ends the loop is a [ValueError] or an
    [OverflowError] of a conversion, or was raised by the callback. *)
Theorem loop_exceptions (lines : list string) (duration : option float)
  (log log' : list Sample) (e : exc) :
  monitor progress_callback lines duration log = (Raise e, log') ->
  e = ValueError \/ e = OverflowError
  \/ exists f l s, progress_callback = Some f /\ f l s = Raise e.
Proof.
  revert duration log. induction lines as [|line rest IH];
    intros duration log; [discriminate|].
  rewrite monitor_cons.
  destruct (duration_block line duration) as [d'|e0] eqn:Hd.
  2:{ intros [= <- _]. left. exact (duration_block_raises _ _ _ Hd). }
  rewrite progress_block_eq.
  destruct (progress_sample line d') as [[s|]|e0] eqn:Hs.
  - destruct progress_callback as [f|]; cbn [report ret]; [|apply IH].
    destruct (f log s) as [u|e0] eqn:Hf; [apply IH|].
    intros [= <- _]. right; right. now exists f, log, s.
  - apply IH.
  - intros [= <- _]. revert Hs. unfold progress_sample.
    destruct (contains "time=" line); [|discriminate].
    destruct (search time_re line) as [gs|]; [|discriminate].
    destruct d' as [d|]; [|discriminate].
    destruct (truthy d) eqn:Ht; [|discriminate].
    destruct (sample_of gs d line) as [s|e1] eqn:Hs; cbn [bind];
      [discriminate|].
    intros [= <-].
    destruct (sample_of_raises_conversion gs d line e1 Ht Hs); auto.
Qed.

End MonitorMore.

(** A progress line as ffmpeg prints it. *)
Lemma elapsed_time_marker_converts_witness :
  PyStr.contains "time=" "size=1kB time=00:05:00.00 bitrate=1kbits/s" = true
  /\ (exists h m s f,
         ["00"; "05"; "00.00"] = [h; m; s ++ "." ++ f]
         /\ Re.all_of Re.Digit (h ++ m ++ s ++ f) = true)
  /\ exists elapsed, Msub.to_seconds ["00"; "05"; "00.00"] = Ok elapsed.
Proof.
  apply (elapsed_time_marker_converts
           "size=1kB time=00:05:00.00 bitrate=1kbits/s").
  vm_compute. reflexivity.
Defined.

(** A duration line as ffmpeg prints it. *)
Lemma duration_marker_with_point_is_stored_witness :
  exists h m s c f,
    ["00"; "10"; "00.00"] = [h; m; s ++ String c f]
    /\ Re.all_of Re.Digit (h ++ m ++ s ++ f) = true
    /\ (c = "."%char ->
        exists d,
          Msub.duration_block "  Duration: 00:10:00.00, start: 0.000000"
            None = Ok (Some d)).
Proof.
  apply (duration_marker_with_point_is_stored
           "  Duration: 00:10:00.00, start: 0.000000").
  vm_compute. reflexivity.
Defined.

(** A progress line with no speed marker. *)
Lemma default_speed_is_one_witness :
  Msub.speed
    {| Msub.percentage := PyFloat.of_Z 50; Msub.speed := PyFloat.of_Z 1;
       Msub.eta := "5m 0s" |} = PyFloat.of_Z 1.
Proof.
  apply (default_speed_is_one "time=00:05:00.00" (Some (PyFloat.of_Z 600)));
    vm_compute; reflexivity.
Defined.

(** A duration marker with a comma, and no callback. *)
Lemma loop_exceptions_witness :
  ValueError = ValueError \/ ValueError = OverflowError
  \/ exists (f : Msub.callback) l s, None = Some f /\ f l s = Raise ValueError.
Proof.
  apply (loop_exceptions None ["Duration: 00:10:00,00"] None [] []).
  vm_compute. reflexivity.
Defined.

(** ** Further properties of the function *)

Section MergeSubMore.

Import PyStr PyFloat Msub MsubFacts MonitorFacts MergeSubFacts.

Variable w : world.
Variable type : Z.
Variables inputvideo sub output : string.
Variable progress_callback : option callback.

(** X10: when the subtitle file does not exist, the function returns
    [False], starts no program and does not call the callback. *)
Theorem missing_subtitle_returns_false :
  path_exists w sub = false ->
  mergeSub w type inputvideo sub output progress_callback
  = {| returned := Ok false; spawned := []; reported := [] |}.
Proof.
  intros H. unfold mergeSub. rewrite H.
  now destruct (path_exists w inputvideo).
Qed.

(** X11: with a type outside 1..5 the function returns [False], starts no
    program and does not call the callback, whether the files exist or
    not. *)
Theorem invalid_type_returns_false :
  (type < 1 \/ 5 < type)%Z ->
  mergeSub w type inputvideo sub output progress_callback
  = {| returned := Ok false; spawned := []; reported := [] |}.
Proof.
  intros H. unfold mergeSub.
  rewrite (no_command_outside_1_to_5 type inputvideo sub output H).
  destruct (path_exists w inputvideo), (path_exists w sub); reflexivity.
Qed.



(** X14: with an exit code other than 0 the function does not return
    [True], whatever the stream reported. *)
Theorem nonzero_exit_is_never_success :
  (forall command p, Popen w command = Some p -> returncode p <> 0%Z) ->
  returned (mergeSub w type inputvideo sub output progress_callback)
  <> Ok true.
Proof.
  intros Hcode.
  destruct (mergeSub_cases w type inputvideo sub output progress_callback)
    as [[-> _] | [(out & command & _ & _ & _ & _ & ->)
                 | (out & command & p & Hv & Hs & Hb & Hp)]];
    [discriminate | discriminate |].
  destruct (mergeSub_run w type inputvideo sub output progress_callback
              out command p Hv Hs Hb Hp) as [-> _].
  destruct (fst (monitor progress_callback (stderr p) None [])) as [d|e];
    cbn [bind except_Exception].
  - intros [= Hc]. apply Z.eqb_eq in Hc. exact (Hcode command p Hp Hc).
  - destruct (is_Exception e); [destruct (print_error e)|]; discriminate.
Qed.

(** X15: the function starts at most one program, and starts it only when
    both files exist, with the command built for the type. *)
Theorem at_most_one_program :
  spawned (mergeSub w type inputvideo sub output progress_callback) = []
  \/ (path_exists w inputvideo = true /\ path_exists w sub = true
      /\ exists out command,
          build_command type inputvideo sub output = Some (out, command)
          /\ spawned (mergeSub w type inputvideo sub output
                        progress_callback) = [command]).
Proof.
  destruct (mergeSub_cases w type inputvideo sub output progress_callback)
    as [[-> _] | [(out & command & Hv & Hs & Hb & _ & ->)
                 | (out & command & p & Hv & Hs & Hb & Hp)]];
    [now left | right | right]; (split; [exact Hv|]); (split; [exact Hs|]);
    exists out, command; (split; [exact Hb|]); [reflexivity|].
  now destruct (mergeSub_run w type inputvideo sub output progress_callback
                  out command p Hv Hs Hb Hp) as (_ & -> & _).
Qed.

(** X17: a callback that returns from every call does not change what the
    function returns nor the program it starts. *)
Theorem returning_callback_keeps_result (f : callback) :
  (forall log s, f log s = Ok tt) ->
  returned (mergeSub w type inputvideo sub output (Some f))
  = returned (mergeSub w type inputvideo sub output None)
  /\ spawned (mergeSub w type inputvideo sub output (Some f))
     = spawned (mergeSub w type inputvideo sub output None).
Proof.
  intros Hf.
  destruct (mergeSub_cases w type inputvideo sub output (Some f))
    as [[E [Hv | [Hs | Hb]]]
       | [(out & command & Hv & Hs & Hb & Hp & E)
         | (out & command & p & Hv & Hs & Hb & Hp)]].
  - unfold mergeSub. now rewrite Hv.
  - unfold mergeSub. rewrite Hs. now destruct (path_exists w inputvideo).
  - unfold mergeSub. rewrite Hb.
    now destruct (path_exists w inputvideo), (path_exists w sub).
  - unfold mergeSub. now rewrite Hv, Hs, Hb, Hp.
  - destruct (mergeSub_run w type inputvideo sub output (Some f)
                out command p Hv Hs Hb Hp) as (-> & -> & _).
    destruct (mergeSub_run w type inputvideo sub output None
                out command p Hv Hs Hb Hp) as (-> & -> & _).
    now rewrite (monitor_returning f (stderr p) Hf None [] []).
Qed.

(** X18: a callback that raises whenever it is called is called at most
    once; when what it raises derives from [Exception] and prints, its
    call makes the function return [False]. *)
Theorem raising_callback_is_called_once (f : callback) :
  (forall log s, exists e, f log s = Raise e) ->
  (List.length
     (reported (mergeSub w type inputvideo sub output (Some f))) <= 1)%nat
  /\ ((forall log s e,
          f log s = Raise e ->
          is_Exception e = true /\ print_error e = None) ->
      reported (mergeSub w type inputvideo sub output (Some f)) <> [] ->
      returned (mergeSub w type inputvideo sub output (Some f)) = Ok false).
Proof.
  intros Hf.
  destruct (mergeSub_cases w type inputvideo sub output (Some f))
    as [[-> _] | [(out & command & _ & _ & _ & _ & ->)
                 | (out & command & p & Hv & Hs & Hb & Hp)]];
    cbn [reported returned List.length];
    [split; [lia | congruence] | split; [lia | congruence] |].
  destruct (mergeSub_run w type inputvideo sub output (Some f)
              out command p Hv Hs Hb Hp) as (-> & _ & ->).
  destruct (monitor_raising f (stderr p) Hf None [])
    as [-> | (s & e & He & ->)]; cbn [fst snd app List.length].
  - split; [lia | congruence].
  - split; [lia|]. intros Hex _. cbn [bind except_Exception].
    destruct (Hex [] s e He) as [-> ->]. reflexivity.
Qed.

End MergeSubMore.

(** A world with the video and nothing else. *)
Lemma missing_subtitle_returns_false_witness :
  Msub.mergeSub
    {| Msub.path_exists := fun p => String.eqb p "video.mp4";
       Msub.Popen := fun _ => None |}
    3 "video.mp4" "subs.srt" Msub.default_output (Some (fun _ _ => Ok tt))
  = {| Msub.returned := Ok false; Msub.spawned := []; Msub.reported := [] |}.
Proof.
  apply (missing_subtitle_returns_false
           {| Msub.path_exists := fun p => String.eqb p "video.mp4";
              Msub.Popen := fun _ => None |}).
  reflexivity.
Defined.

(** Type 6. *)
Lemma invalid_type_returns_false_witness :
  Msub.mergeSub (Msub.ffmpeg_prints [] 0)
    6 "video.mp4" "subs.srt" Msub.default_output None
  = {| Msub.returned := Ok false; Msub.spawned := []; Msub.reported := [] |}.
Proof.
  apply (invalid_type_returns_false (Msub.ffmpeg_prints [] 0) 6).
  right. lia.
Defined.


(** A run that reaches 100 percent and exits with code 1. *)
Lemma nonzero_exit_is_never_success_witness :
  Msub.returned
    (Msub.mergeSub
       (Msub.ffmpeg_prints ["Duration: 00:10:00.00";
                            "time=00:10:00.00 speed=2.0x"] 1)
       3 "video.mp4" "subs.srt" Msub.default_output
       (Some (fun _ _ => Ok tt)))
  <> Ok true.
Proof.
  apply (nonzero_exit_is_never_success
           (Msub.ffmpeg_prints ["Duration: 00:10:00.00";
                                "time=00:10:00.00 speed=2.0x"] 1)).
  intros command p [= <-]. discriminate.
Defined.

(** A callback that does nothing. *)
Lemma returning_callback_keeps_result_witness :
  Msub.returned
    (Msub.mergeSub
       (Msub.ffmpeg_prints ["Duration: 00:10:00.00";
                            "time=00:05:00.00 speed=2.0x"] 0)
       1 "video.mp4" "subs.srt" Msub.default_output
       (Some (fun _ _ => Ok tt)))
  = Msub.returned
      (Msub.mergeSub
         (Msub.ffmpeg_prints ["Duration: 00:10:00.00";
                              "time=00:05:00.00 speed=2.0x"] 0)
         1 "video.mp4" "subs.srt" Msub.default_output None).
Proof.
  apply (returning_callback_keeps_result
           (Msub.ffmpeg_prints ["Duration: 00:10:00.00";
                                "time=00:05:00.00 speed=2.0x"] 0)
           1 "video.mp4" "subs.srt" Msub.default_output
           (fun _ _ => Ok tt)).
  reflexivity.
Defined.

(** Two progress lines and a callback that raises. *)
Lemma raising_callback_is_called_once_witness :
  (List.length
     (Msub.reported
        (Msub.mergeSub
           (Msub.ffmpeg_prints ["Duration: 00:10:00.00";
                                "time=00:05:00.00 speed=2.0x";
                                "time=00:06:00.00 speed=2.0x"] 0)
           1 "video.mp4" "subs.srt" Msub.default_output
           (Some (fun _ _ => Raise (Raised true None))))) <= 1)%nat.
Proof.
  apply (raising_callback_is_called_once
           (Msub.ffmpeg_prints ["Duration: 00:10:00.00";
                                "time=00:05:00.00 speed=2.0x";
                                "time=00:06:00.00 speed=2.0x"] 0)
           1 "video.mp4" "subs.srt" Msub.default_output
           (fun _ _ => Raise (Raised true None))).
  intros log s. now exists (Raised true None).
Defined.
